(** * Financial calculations of the finance3 pages

    A shallow embedding of the arithmetic that the Next.js pages of the
    repository perform on their records (debts, accounts, budget, savings
    goals, bills and transactions), and the properties of that arithmetic.

    JavaScript numbers are modelled as exact rationals extended with the
    three IEEE special values.  Rounding of finite results is not modelled,
    and there is a single zero, which stands for [+0]. *)

From Stdlib Require Import QArith Qcanon Qround ZArith List String Ascii Bool Lia Lqa.
Import ListNotations.

Local Open Scope Qc_scope.

(** ** JavaScript numbers *)

Module JS.

Inductive number : Type :=
| Fin (q : Qc)
| PInf
| NInf
| NaN.

(** A numeric literal of the source. *)
Definition lit (q : Q) : number := Fin (Q2Qc q).

Definition Qc_ltb (x y : Qc) : bool :=
  if Qclt_le_dec x y then true else false.

Definition Qc_eqb (x y : Qc) : bool :=
  if Qc_eq_dec x y then true else false.

Definition neg (x : number) : number :=
  match x with
  | Fin a => Fin (- a)
  | PInf => NInf
  | NInf => PInf
  | NaN => NaN
  end.

(** [x + y] *)
Definition add (x y : number) : number :=
  match x, y with
  | NaN, _ | _, NaN => NaN
  | PInf, NInf | NInf, PInf => NaN
  | PInf, _ | _, PInf => PInf
  | NInf, _ | _, NInf => NInf
  | Fin a, Fin b => Fin (a + b)
  end.

(** [x - y] *)
Definition sub (x y : number) : number := add x (neg y).

(** An infinity times, or divided by, a finite value of the given sign. *)
Definition scale_inf (inf : number) (q : Qc) : number :=
  if Qc_ltb 0 q then inf
  else if Qc_ltb q 0 then neg inf
  else NaN.

(** [x * y] *)
Definition mul (x y : number) : number :=
  match x, y with
  | NaN, _ | _, NaN => NaN
  | Fin a, Fin b => Fin (a * b)
  | Fin a, inf => scale_inf inf a
  | inf, Fin b => scale_inf inf b
  | PInf, PInf | NInf, NInf => PInf
  | PInf, NInf | NInf, PInf => NInf
  end.

(** [x / y]; a zero divisor is [+0]. *)
Definition div (x y : number) : number :=
  match x, y with
  | NaN, _ | _, NaN => NaN
  | Fin a, Fin b =>
      if Qc_eqb b 0 then scale_inf PInf a else Fin (a / b)
  | Fin _, _ => Fin 0
  | inf, Fin b => if Qc_ltb b 0 then neg inf else inf
  | _, _ => NaN
  end.

(** [x < y] *)
Definition lt (x y : number) : bool :=
  match x, y with
  | NaN, _ | _, NaN => false
  | Fin a, Fin b => Qc_ltb a b
  | NInf, NInf => false
  | NInf, _ => true
  | _, NInf => false
  | PInf, _ => false
  | Fin _, PInf => true
  end.

(** [x === y] on numbers *)
Definition eqb (x y : number) : bool :=
  match x, y with
  | Fin a, Fin b => Qc_eqb a b
  | PInf, PInf | NInf, NInf => true
  | _, _ => false
  end.

(** [x > y], [x <= y], [x >= y] *)
Definition gt (x y : number) : bool := lt y x.
Definition le (x y : number) : bool := lt x y || eqb x y.
Definition ge (x y : number) : bool := le y x.

(** [Math.abs] *)
Definition Math_abs (x : number) : number :=
  match x with
  | Fin a => if Qc_ltb a 0 then Fin (- a) else Fin a
  | PInf | NInf => PInf
  | NaN => NaN
  end.

(** [Math.ceil] *)
Definition Math_ceil (x : number) : number :=
  match x with
  | Fin a => Fin (Q2Qc (inject_Z (Qceiling a)))
  | _ => x
  end.

(** [Math.log], over the logarithm [ln] of a positive finite argument. *)
Definition Math_log (ln : Qc -> Qc) (x : number) : number :=
  match x with
  | NaN | NInf => NaN
  | PInf => PInf
  | Fin a =>
      if Qc_ltb a 0 then NaN
      else if Qc_eqb a 0 then NInf
      else Fin (ln a)
  end.

(** [Number.isFinite] *)
Definition isFinite (x : number) : bool :=
  match x with Fin _ => true | _ => false end.

(** A rational function with the sign of the natural logarithm on the
    positive rationals (its tangent at 1), to run [Math_log] on concrete
    inputs. *)
Definition ln_tangent (x : Qc) : Qc := x - 1.

(** The [length] of an array, as a number. *)
Definition ofNat (n : nat) : number := Fin (Q2Qc (inject_Z (Z.of_nat n))).

(** [Array.from(new Set(xs))] on strings: the distinct elements of [xs], in
    the order of their first occurrence. *)
Definition Array_from_Set (xs : list string) : list string :=
  fold_left (fun seen x => if existsb (String.eqb x) seen then seen else seen ++ [x])
    xs [].

(** [s.toLowerCase()], on the ASCII letters; any other character is kept. *)
Definition lowerAscii (c : ascii) : ascii :=
  let n := nat_of_ascii c in
  if Nat.leb 65 n && Nat.leb n 90 then ascii_of_nat (n + 32) else c.

Fixpoint toLowerCase (s : string) : string :=
  match s with
  | EmptyString => EmptyString
  | String c s' => String (lowerAscii c) (toLowerCase s')
  end.

(** [s.includes(t)] *)
Fixpoint includes (s t : string) : bool :=
  String.prefix t s
  || match s with
     | EmptyString => false
     | String _ s' => includes s' t
     end.

End JS.

Import JS.

(** ** Dates and the clock

    A [Date] object is modelled by its time value, the number that
    [getTime()] returns: milliseconds since the epoch, or [NaN] for an
    invalid date.  [new Date(s)] is modelled for the date-only ISO form
    [YYYY-MM-DD] that the records of the pages hold (midnight UTC); on any
    other string the model gives the invalid date. *)

Module Dates.

Local Open Scope Z_scope.

Definition digit (c : ascii) : option Z :=
  let n := Z.of_nat (nat_of_ascii c) in
  if (48 <=? n) && (n <=? 57) then Some (n - 48) else None.

Fixpoint digits (acc : Z) (cs : list ascii) : option Z :=
  match cs with
  | [] => Some acc
  | c :: cs' =>
      match digit c with
      | Some d => digits (10 * acc + d) cs'
      | None => None
      end
  end.

Definition isLeapYear (y : Z) : bool :=
  ((y mod 4 =? 0) && negb (y mod 100 =? 0)) || (y mod 400 =? 0).

Definition daysInMonth (y m : Z) : Z :=
  if m =? 2 then (if isLeapYear y then 29 else 28)
  else if (m =? 4) || (m =? 6) || (m =? 9) || (m =? 11) then 30
  else 31.

(** Days from 1970-01-01 to the civil date [y-m-d]. *)
Definition daysFromCivil (y m d : Z) : Z :=
  let y' := if m <=? 2 then y - 1 else y in
  let era := y' / 400 in
  let yoe := y' - era * 400 in
  let doy := (153 * (if 2 <? m then m - 3 else m + 9) + 2) / 5 + d - 1 in
  let doe := yoe * 365 + yoe / 4 - yoe / 100 + doy in
  era * 146097 + doe - 719468.

Definition msPerDay : Z := 1000 * 60 * 60 * 24.

Definition parse (s : string) : option Z :=
  match list_ascii_of_string s with
  | [y1; y2; y3; y4; s1; m1; m2; s2; d1; d2] =>
      if Ascii.eqb s1 "-" && Ascii.eqb s2 "-" then
        match digits 0 [y1; y2; y3; y4], digits 0 [m1; m2], digits 0 [d1; d2] with
        | Some y, Some m, Some d =>
            if (1 <=? m) && (m <=? 12) && (1 <=? d) && (d <=? daysInMonth y m)
            then Some (daysFromCivil y m d * msPerDay)
            else None
        | _, _, _ => None
        end
      else None
  | _ => None
  end.

Definition Date : Type := number.

Definition ofZ (z : Z) : number := Fin (Q2Qc (inject_Z z)).

(** [new Date(s)] *)
Definition new_Date (s : string) : Date :=
  match parse s with
  | Some ms => ofZ ms
  | None => NaN
  end.

(** [d.getTime()] *)
Definition getTime (d : Date) : number := d.

End Dates.

(** The ambient clock.  A computation that calls [new Date()] reads the
    clock of the world it runs in; it is modelled as a function of that
    world. *)

Module Ambient.

Record World : Type := { clock : Z (* ms since the epoch *) }.

Definition M (A : Type) : Type := World -> A.

Definition ret {A : Type} (a : A) : M A := fun _ => a.

Definition bind {A B : Type} (m : M A) (k : A -> M B) : M B :=
  fun w => k (m w) w.

(** [new Date()] *)
Definition new_Date_now : M Dates.Date := fun w => Dates.ofZ (clock w).

(** The world after [ms] more milliseconds. *)
Definition later (ms : Z) (w : World) : World :=
  {| clock := (clock w + ms)%Z |}.

End Ambient.

Notation "x <- m ;; k" := (Ambient.bind m (fun x => k))
  (at level 61, m at next level, right associativity).

(** ** Debts page: src/app/debts/page.tsx, [DebtsPage] *)

Module DebtsPage.

Record Debt : Type := {
  id : string;
  name : string;
  principal : number;
  currentBalance : number;
  interestRate : number;
  minimumPayment : number;
  estimatedPayoffDate : string;
  totalInterest : number;
  progress : number
}.

Section Payoff.
Variable ln : Qc -> Qc.

Definition calculatePayoffDate (balance rate payment : number) : number :=
  let monthlyRate := div (div rate (lit 100)) (lit 12) in
  let months :=
    div (Math_log ln (div payment (sub payment (mul balance monthlyRate))))
        (Math_log ln (add (lit 1) monthlyRate)) in
  Math_ceil months.
End Payoff.

(** The monthly rate [rate / 100 / 12] of a finite annual rate. *)
Definition monthlyRate (r : Qc) : Qc := r / Q2Qc 100 / Q2Qc 12.

Definition totalDebt (debts : list Debt) : number :=
  fold_left (fun sum debt => add sum (currentBalance debt)) debts (lit 0).

Definition totalPaid (debts : list Debt) : number :=
  fold_left (fun sum debt => add sum (sub (principal debt) (currentBalance debt)))
    debts (lit 0).

Definition avgInterestRate (debts : list Debt) : number :=
  div (fold_left (fun sum debt =>
                    add sum (mul (interestRate debt) (currentBalance debt)))
         debts (lit 0))
      (totalDebt debts).

End DebtsPage.

(** ** Accounts page: [AccountsPage], the second component of
    src/app/debts/page.tsx *)

Module AccountsPage.

Inductive AccountType : Type := checking | savings | credit | investment.

Definition AccountType_eqb (a b : AccountType) : bool :=
  match a, b with
  | checking, checking | savings, savings
  | credit, credit | investment, investment => true
  | _, _ => false
  end.

Record Account : Type := {
  id : string;
  name : string;
  type : AccountType;
  balance : number;
  bankName : string;
  accountNumber : string;
  isActive : bool;
  lastSync : string
}.

Definition totalAssets (accounts : list Account) : number :=
  fold_left (fun sum account => add sum (balance account))
    (filter (fun account =>
               negb (AccountType_eqb (type account) credit)
               && gt (balance account) (lit 0)) accounts)
    (lit 0).

Definition totalLiabilities (accounts : list Account) : number :=
  fold_left (fun sum account => add sum (Math_abs (balance account)))
    (filter (fun account =>
               AccountType_eqb (type account) credit
               && lt (balance account) (lit 0)) accounts)
    (lit 0).

Definition netWorth (accounts : list Account) : number :=
  sub (totalAssets accounts) (totalLiabilities accounts).

Definition getBalanceColor (balance : number) (type : string) : string :=
  if String.eqb type "credit" then
    (if lt balance (lit 0) then "text-red-600" else "text-green-600")
  else
    (if ge balance (lit 0) then "text-green-600" else "text-red-600").

End AccountsPage.

(** ** Budget page: src/app/budget/page.tsx *)

Module BudgetPage.

Record Budget : Type := {
  name : string;
  monthlyIncome : number;
  payFrequency : string;
  firstPayDate : string
}.

Definition biWeeklyIncome (budget : Budget) : number :=
  div (mul (monthlyIncome budget) (lit 12)) (lit 26).

Record Period : Type := {
  start : string;
  end_ : string;
  income : number;
  spent : number;
  remaining : number
}.

Definition currentPeriod (budget : Budget) : Period :=
  {| start := "2024-01-15";
     end_ := "2024-01-28";
     income := biWeeklyIncome budget;
     spent := lit 1250.75;
     remaining := sub (biWeeklyIncome budget) (lit 1250.75) |}.

(** The three cards of the Budget Recommendations, each with the condition
    under which the page renders it. *)
Definition overBudgetAlert (currentPeriod : Period) : bool :=
  lt (remaining currentPeriod) (lit 0).

Definition budgetTip (currentPeriod : Period) : bool :=
  gt (remaining currentPeriod) (lit 0) && lt (remaining currentPeriod) (lit 200).

Definition greatJob (currentPeriod : Period) : bool :=
  ge (remaining currentPeriod) (lit 200).

End BudgetPage.

(** ** Savings page: src/app/savings/page.tsx *)

Module SavingsPage.

Record SavingsGoal : Type := {
  id : string;
  name : string;
  targetAmount : number;
  currentAmount : number;
  targetDate : string;
  category : string;
  isActive : bool;
  createdAt : string;
  monthlyContribution : number;
  progress : number
}.

Definition activeGoals (goals : list SavingsGoal) : list SavingsGoal :=
  filter (fun goal => isActive goal) goals.

Definition completedGoals (goals : list SavingsGoal) : list SavingsGoal :=
  filter (fun goal => negb (isActive goal) && eqb (progress goal) (lit 100)) goals.

Definition totalTargetAmount (goals : list SavingsGoal) : number :=
  fold_left (fun sum goal => add sum (targetAmount goal)) (activeGoals goals) (lit 0).

Definition totalCurrentAmount (goals : list SavingsGoal) : number :=
  fold_left (fun sum goal => add sum (currentAmount goal)) (activeGoals goals) (lit 0).

Definition totalMonthlyContribution (goals : list SavingsGoal) : number :=
  fold_left (fun sum goal => add sum (monthlyContribution goal)) (activeGoals goals) (lit 0).

Definition overallProgress (goals : list SavingsGoal) : number :=
  if gt (totalTargetAmount goals) (lit 0)
  then mul (div (totalCurrentAmount goals) (totalTargetAmount goals)) (lit 100)
  else lit 0.

Definition calculateMonthsRemaining
    (targetDate : string) (currentAmount targetAmount monthlyContribution : number)
    : number :=
  let remaining := sub targetAmount currentAmount in
  if le remaining (lit 0) || le monthlyContribution (lit 0) then lit 0
  else Math_ceil (div remaining monthlyContribution).

Definition isOnTrack (goal : SavingsGoal) : Ambient.M bool :=
  let targetDate := Dates.new_Date (targetDate goal) in
  now <- Ambient.new_Date_now ;;
  let monthsUntilTarget :=
    Math_ceil (div (sub (Dates.getTime targetDate) (Dates.getTime now))
                   (mul (mul (mul (mul (lit 1000) (lit 60)) (lit 60)) (lit 24)) (lit 30))) in
  let monthsNeeded :=
    calculateMonthsRemaining (SavingsPage.targetDate goal) (currentAmount goal)
      (targetAmount goal) (monthlyContribution goal) in
  Ambient.ret (le monthsNeeded monthsUntilTarget).

(** The average of the months to goal, of the Your Progress card. *)
Definition averageMonthsToGoal (goals : list SavingsGoal) : number :=
  Math_ceil
    (div (fold_left
            (fun sum goal =>
               add sum (calculateMonthsRemaining (targetDate goal) (currentAmount goal)
                          (targetAmount goal) (monthlyContribution goal)))
            (activeGoals goals) (lit 0))
         (ofNat (List.length (activeGoals goals)))).

End SavingsPage.

(** ** Bills page: [BillsPage], in unnamed/part_000 *)

Module BillsPage.

Inductive Frequency : Type := monthly | quarterly | yearly | weekly.

Record Bill : Type := {
  id : string;
  name : string;
  amount : number;
  dueDate : string;
  frequency : Frequency;
  category : string;
  isPaid : bool;
  isOverdue : bool;
  paymentMethod : string;
  isRecurring : bool;
  nextDueDate : string;
  lastPaidDate : option string
}.

Definition paidBills (bills : list Bill) : list Bill :=
  filter (fun bill => isPaid bill) bills.

Definition unpaidBills (bills : list Bill) : list Bill :=
  filter (fun bill => negb (isPaid bill)) bills.

Definition overdueBills (bills : list Bill) : list Bill :=
  filter (fun bill => isOverdue bill) bills.

Definition upcomingBills (bills : list Bill) : list Bill :=
  filter (fun bill => negb (isPaid bill) && negb (isOverdue bill)) bills.

Definition getBillStatusText (bill : Bill) : string :=
  if isPaid bill then "Paid"
  else if isOverdue bill then "Overdue"
  else "Pending".

Definition getDaysUntilDue (dueDate : string) : Ambient.M number :=
  let due := Dates.new_Date dueDate in
  today <- Ambient.new_Date_now ;;
  let diffTime := sub (Dates.getTime due) (Dates.getTime today) in
  let diffDays :=
    Math_ceil (div diffTime (mul (mul (mul (lit 1000) (lit 60)) (lit 60)) (lit 24))) in
  Ambient.ret diffDays.

Definition totalMonthlyBills (bills : list Bill) : number :=
  fold_left (fun sum bill => add sum (amount bill)) bills (lit 0).

Definition totalPaid (bills : list Bill) : number :=
  fold_left (fun sum bill => add sum (amount bill)) (paidBills bills) (lit 0).

Definition totalUnpaid (bills : list Bill) : number :=
  fold_left (fun sum bill => add sum (amount bill)) (unpaidBills bills) (lit 0).

Definition totalOverdue (bills : list Bill) : number :=
  fold_left (fun sum bill => add sum (amount bill)) (overdueBills bills) (lit 0).

Definition categories (bills : list Bill) : list string :=
  Array_from_Set (map category bills).

Definition filteredBills (selectedFilter : string) (bills : list Bill) : list Bill :=
  filter (fun bill =>
            if String.eqb selectedFilter "paid" then isPaid bill
            else if String.eqb selectedFilter "unpaid" then negb (isPaid bill)
            else if String.eqb selectedFilter "overdue" then isOverdue bill
            else if String.eqb selectedFilter "upcoming"
                 then negb (isPaid bill) && negb (isOverdue bill)
            else true) bills.

Definition getBillStatusColor (bill : Bill) : string :=
  if isPaid bill then "text-green-600 bg-green-100"
  else if isOverdue bill then "text-red-600 bg-red-100"
  else "text-yellow-600 bg-yellow-100".

Inductive Icon : Type := CheckCircle | AlertTriangle | Clock.

Definition getBillStatusIcon (bill : Bill) : Icon :=
  if isPaid bill then CheckCircle
  else if isOverdue bill then AlertTriangle
  else Clock.

End BillsPage.

(** ** Transactions page: [TransactionsPage], in unnamed/part_003 *)

Module TransactionsPage.

Inductive TransactionType : Type := income | expense | transfer.

Definition TransactionType_eqb (a b : TransactionType) : bool :=
  match a, b with
  | income, income | expense, expense | transfer, transfer => true
  | _, _ => false
  end.

Record Transaction : Type := {
  id : string;
  date : string;
  description : string;
  category : string;
  amount : number;
  type : TransactionType;
  account : string;
  isRecurring : bool
}.

Definition totalIncome (transactions : list Transaction) : number :=
  fold_left (fun sum t => add sum (amount t))
    (filter (fun t => TransactionType_eqb (type t) income) transactions)
    (lit 0).

Definition totalExpenses (transactions : list Transaction) : number :=
  fold_left (fun sum t => add sum (Math_abs (amount t)))
    (filter (fun t => TransactionType_eqb (type t) expense) transactions)
    (lit 0).

Definition netAmount (transactions : list Transaction) : number :=
  sub (totalIncome transactions) (totalExpenses transactions).

(** The string of a transaction type. *)
Definition typeName (t : TransactionType) : string :=
  match t with
  | income => "income"
  | expense => "expense"
  | transfer => "transfer"
  end.

Definition categories (transactions : list Transaction) : list string :=
  Array_from_Set (map category transactions).

Definition filteredTransactions
    (searchTerm selectedCategory selectedType : string)
    (transactions : list Transaction) : list Transaction :=
  filter (fun transaction =>
            let matchesSearch :=
              includes (toLowerCase (description transaction)) (toLowerCase searchTerm)
              || includes (toLowerCase (category transaction)) (toLowerCase searchTerm) in
            let matchesCategory :=
              String.eqb selectedCategory "all"
              || String.eqb (category transaction) selectedCategory in
            let matchesType :=
              String.eqb selectedType "all"
              || String.eqb (typeName (type transaction)) selectedType in
            matchesSearch && matchesCategory && matchesType) transactions.

End TransactionsPage.

(** ** The accounts page that the deployment script writes
    (unnamed/part_002, create accounts page) *)

Module DeployedAccountsPage.

Record Account : Type := {
  id : string;
  name : string;
  type : string;
  balance : number;
  bankName : string;
  lastSync : string;
  isActive : bool
}.

Definition totalAssets (accounts : list Account) : number :=
  fold_left (fun sum a => add sum (balance a))
    (filter (fun a => gt (balance a) (lit 0)) accounts) (lit 0).

Definition totalLiabilities (accounts : list Account) : number :=
  fold_left (fun sum a => add sum (Math_abs (balance a)))
    (filter (fun a => lt (balance a) (lit 0)) accounts) (lit 0).

Definition netWorth (accounts : list Account) : number :=
  sub (totalAssets accounts) (totalLiabilities accounts).

End DeployedAccountsPage.

(** ** Dashboard: src/components/Dashboard.tsx *)

Module Dashboard.

Record RecentTransaction : Type := {
  id : string;
  description : string;
  amount : number;
  type : string;
  date : string
}.

Record DashboardData : Type := {
  totalBalance : number;
  totalDebt : number;
  monthlyIncome : number;
  monthlyExpenses : number;
  recentTransactions : list RecentTransaction
}.

Definition netWorth (data : DashboardData) : number :=
  sub (totalBalance data) (totalDebt data).

Definition savingsRate (data : DashboardData) : number :=
  mul (div (sub (monthlyIncome data) (monthlyExpenses data)) (monthlyIncome data))
      (lit 100).

End Dashboard.

(** ** The rules of the specification

    The definitions of this module follow the words of the specification,
    not the code; the pages are compared with them below. *)

Module Spec.

(** The sum of a list of numbers. *)
Fixpoint sum (xs : list number) : number :=
  match xs with
  | [] => lit 0
  | x :: xs' => add x (sum xs')
  end.

(** 4.1: total assets, credit float included. *)
Definition totalAssets (accounts : list AccountsPage.Account) : number :=
  add
    (sum (map AccountsPage.balance
            (filter (fun a =>
                       negb (AccountsPage.AccountType_eqb (AccountsPage.type a) AccountsPage.credit)
                       && gt (AccountsPage.balance a) (lit 0)) accounts)))
    (sum (map AccountsPage.balance
            (filter (fun a =>
                       AccountsPage.AccountType_eqb (AccountsPage.type a) AccountsPage.credit
                       && gt (AccountsPage.balance a) (lit 0)) accounts))).

(** 4.2: income of a pay period. *)
Inductive PayFrequency : Type := weekly | biweekly | monthly | quarterly | yearly.

Definition periodsPerYear (f : PayFrequency) : number :=
  match f with
  | weekly => lit 52
  | biweekly => lit 26
  | monthly => lit 12
  | quarterly => lit 4
  | yearly => lit 1
  end.

Definition periodIncome (monthlyIncome : number) (f : PayFrequency) : number :=
  mul monthlyIncome (div (periodsPerYear f) (lit 12)).

(** 4.4: months needed, with [+Infinity] as the sentinel of an
    unreachable goal. *)
Definition monthsNeeded (target current monthlyContribution : number) : number :=
  let remaining :=
    if gt (sub target current) (lit 0) then sub target current else lit 0 in
  if eqb remaining (lit 0) then lit 0
  else if le monthlyContribution (lit 0) then PInf
  else Math_ceil (div remaining monthlyContribution).

(** 4.5: status of a bill, from its due date and the as-of date. *)
Inductive BillStatus : Type := Paid | Pending | Overdue.

Definition classify (dueDate : string) (isPaidFlag : bool) (asOfDate : string)
    : BillStatus :=
  if isPaidFlag then Paid
  else if lt (Dates.getTime (Dates.new_Date dueDate))
             (Dates.getTime (Dates.new_Date asOfDate)) then Overdue
  else Pending.

Definition statusText (s : BillStatus) : string :=
  match s with
  | Paid => "Paid"
  | Pending => "Pending"
  | Overdue => "Overdue"
  end.

End Spec.

(** ** Records of the pages, for concrete evaluations *)

(** The credit card of the accounts page, holding a credit float of 100. *)
Definition floatCard : AccountsPage.Account :=
  {| AccountsPage.id := "3";
     AccountsPage.name := "Travel Rewards Card";
     AccountsPage.type := AccountsPage.credit;
     AccountsPage.balance := lit 100;
     AccountsPage.bankName := "Capital One";
     AccountsPage.accountNumber := "****9012";
     AccountsPage.isActive := true;
     AccountsPage.lastSync := "2024-01-15T09:45:00Z" |}.

(** The budget of the budget page. *)
Definition sampleBudget : BudgetPage.Budget :=
  {| BudgetPage.name := "My Budget";
     BudgetPage.monthlyIncome := lit 4500;
     BudgetPage.payFrequency := "bi-weekly";
     BudgetPage.firstPayDate := "2024-01-01" |}.

(** Bill 3 of the bills page. *)
Definition internetBill : BillsPage.Bill :=
  {| BillsPage.id := "3";
     BillsPage.name := "Internet";
     BillsPage.amount := lit 65;
     BillsPage.dueDate := "2024-01-20";
     BillsPage.frequency := BillsPage.monthly;
     BillsPage.category := "Utilities";
     BillsPage.isPaid := false;
     BillsPage.isOverdue := false;
     BillsPage.paymentMethod := "Auto Pay";
     BillsPage.isRecurring := true;
     BillsPage.nextDueDate := "2024-01-20";
     BillsPage.lastPaidDate := None |}.

(** Worlds whose clocks read 2024-01-10 and 2024-01-20, midnight UTC. *)
Definition jan10 : Ambient.World := {| Ambient.clock := 1704844800000 |}.

Definition jan20 : Ambient.World := {| Ambient.clock := 1705708800000 |}.

Definition mkTransaction (id date description category : string) (amount : Q)
    (type : TransactionsPage.TransactionType) (account : string) (isRecurring : bool)
    : TransactionsPage.Transaction :=
  {| TransactionsPage.id := id;
     TransactionsPage.date := date;
     TransactionsPage.description := description;
     TransactionsPage.category := category;
     TransactionsPage.amount := lit amount;
     TransactionsPage.type := type;
     TransactionsPage.account := account;
     TransactionsPage.isRecurring := isRecurring |}.

(** Transactions 1, 2 and 6 of the transactions page. *)
Definition salaryDeposit : TransactionsPage.Transaction :=
  mkTransaction "1" "2024-01-15" "Salary Deposit" "Income" 2250
    TransactionsPage.income "Checking Account" true.

Definition groceryStore : TransactionsPage.Transaction :=
  mkTransaction "2" "2024-01-15" "Grocery Store" "Food & Dining" (-125.50)
    TransactionsPage.expense "Credit Card" false.

Definition onlineTransfer : TransactionsPage.Transaction :=
  mkTransaction "6" "2024-01-12" "Online Transfer" "Transfer" (-500)
    TransactionsPage.transfer "Savings Account" false.

Definition mkGoal (id name : string) (targetAmount currentAmount : Q)
    (targetDate category : string) (isActive : bool) (createdAt : string)
    (monthlyContribution progress : Q) : SavingsPage.SavingsGoal :=
  {| SavingsPage.id := id;
     SavingsPage.name := name;
     SavingsPage.targetAmount := lit targetAmount;
     SavingsPage.currentAmount := lit currentAmount;
     SavingsPage.targetDate := targetDate;
     SavingsPage.category := category;
     SavingsPage.isActive := isActive;
     SavingsPage.createdAt := createdAt;
     SavingsPage.monthlyContribution := lit monthlyContribution;
     SavingsPage.progress := lit progress |}.

(** The goals of the savings page. *)
Definition pageGoals : list SavingsPage.SavingsGoal :=
  [ mkGoal "1" "Emergency Fund" 10000 6500 "2024-12-31" "Emergency" true
      "2024-01-01" 500 65;
    mkGoal "2" "Vacation to Europe" 5000 2100 "2024-08-15" "Travel" true
      "2024-01-01" 400 42;
    mkGoal "3" "New Car Down Payment" 8000 3200 "2025-06-01" "Transportation" true
      "2024-01-01" 300 40;
    mkGoal "4" "Home Renovation" 15000 15000 "2024-03-01" "Home" false
      "2023-06-01" 0 100 ].

(** Bill 4 of the bills page, and the same bill once paid with its overdue
    flag left set. *)
Definition carInsurance : BillsPage.Bill :=
  {| BillsPage.id := "4";
     BillsPage.name := "Car Insurance";
     BillsPage.amount := lit 125;
     BillsPage.dueDate := "2024-01-10";
     BillsPage.frequency := BillsPage.monthly;
     BillsPage.category := "Insurance";
     BillsPage.isPaid := false;
     BillsPage.isOverdue := true;
     BillsPage.paymentMethod := "Credit Card";
     BillsPage.isRecurring := true;
     BillsPage.nextDueDate := "2024-01-10";
     BillsPage.lastPaidDate := None |}.

Definition carInsurancePaid : BillsPage.Bill :=
  {| BillsPage.id := "4";
     BillsPage.name := "Car Insurance";
     BillsPage.amount := lit 125;
     BillsPage.dueDate := "2024-01-10";
     BillsPage.frequency := BillsPage.monthly;
     BillsPage.category := "Insurance";
     BillsPage.isPaid := true;
     BillsPage.isOverdue := true;
     BillsPage.paymentMethod := "Credit Card";
     BillsPage.isRecurring := true;
     BillsPage.nextDueDate := "2024-02-10";
     BillsPage.lastPaidDate := Some "2024-01-12"%string |}.

(** The debts of the debts page. *)
Definition mkDebt (id name : string)
    (principal currentBalance interestRate minimumPayment : Q)
    (estimatedPayoffDate : string) (totalInterest progress : Q) : DebtsPage.Debt :=
  {| DebtsPage.id := id;
     DebtsPage.name := name;
     DebtsPage.principal := lit principal;
     DebtsPage.currentBalance := lit currentBalance;
     DebtsPage.interestRate := lit interestRate;
     DebtsPage.minimumPayment := lit minimumPayment;
     DebtsPage.estimatedPayoffDate := estimatedPayoffDate;
     DebtsPage.totalInterest := lit totalInterest;
     DebtsPage.progress := lit progress |}.

Definition pageDebts : list DebtsPage.Debt :=
  [ mkDebt "1" "Credit Card" 5000 3200 18.5 150 "2025-08-15" 850 36;
    mkDebt "2" "Student Loan" 15000 9300 6.5 200 "2027-12-01" 2100 38 ].

(** A checking account of the accounts page, overdrawn by 120. *)
Definition overdrawnChecking : AccountsPage.Account :=
  {| AccountsPage.id := "1";
     AccountsPage.name := "Primary Checking";
     AccountsPage.type := AccountsPage.checking;
     AccountsPage.balance := lit (-120);
     AccountsPage.bankName := "Chase Bank";
     AccountsPage.accountNumber := "****1234";
     AccountsPage.isActive := true;
     AccountsPage.lastSync := "2024-01-15T10:30:00Z" |}.

Definition emergencySavings : AccountsPage.Account :=
  {| AccountsPage.id := "2";
     AccountsPage.name := "Emergency Savings";
     AccountsPage.type := AccountsPage.savings;
     AccountsPage.balance := lit 8500;
     AccountsPage.bankName := "Chase Bank";
     AccountsPage.accountNumber := "****5678";
     AccountsPage.isActive := true;
     AccountsPage.lastSync := "2024-01-15T10:30:00Z" |}.

(** * Properties *)

(** ** Rational arithmetic behind the numbers *)

Lemma this_plus (x y : Qc) : (this (x + y) == this x + this y)%Q.
Proof. apply Qred_correct. Qed.

Lemma this_mult (x y : Qc) : (this (x * y) == this x * this y)%Q.
Proof. apply Qred_correct. Qed.

Lemma this_opp (x : Qc) : (this (- x) == - this x)%Q.
Proof. apply Qred_correct. Qed.

Lemma this_minus (x y : Qc) : (this (x - y) == this x - this y)%Q.
Proof. unfold Qcminus. rewrite this_plus, this_opp. reflexivity. Qed.

Lemma this_inv (x : Qc) : (this (/ x) == / this x)%Q.
Proof. apply Qred_correct. Qed.

Lemma this_div (x y : Qc) : (this (x / y) == this x / this y)%Q.
Proof. unfold Qcdiv. rewrite this_mult, this_inv. reflexivity. Qed.

Lemma this_Q2Qc (q : Q) : (this (Q2Qc q) == q)%Q.
Proof. apply Qred_correct. Qed.

Lemma Qc_eq_iff (x y : Qc) : x = y <-> (this x == this y)%Q.
Proof. split; [intros ->; reflexivity | apply Qc_is_canon]. Qed.

(** Moves a goal on [Qc] to [Q], where [lra] and [nra] work. *)
Ltac qc_to_q :=
  repeat match goal with
  | H : @eq Qc _ _ |- _ => apply Qc_eq_iff in H
  | H : ~ @eq Qc _ _ |- _ => rewrite Qc_eq_iff in H
  | |- @eq Qc _ _ => apply Qc_is_canon
  | |- ~ @eq Qc _ _ => rewrite Qc_eq_iff
  end;
  unfold Qclt, Qcle in *;
  repeat (rewrite ?this_minus, ?this_div, ?this_plus, ?this_mult,
            ?this_opp, ?this_inv, ?this_Q2Qc in * );
  unfold Qdiv in *;
  repeat match goal with
  | |- context [Qinv (Z.pos ?p # 1)] =>
      change (Qinv (Z.pos p # 1)) with (1 # p)%Q
  | H : context [Qinv (Z.pos ?p # 1)] |- _ =>
      change (Qinv (Z.pos p # 1)) with (1 # p)%Q in H
  end.

Lemma Fin_eq_compute (a b : Qc) : Qeq_bool a b = true -> Fin a = Fin b.
Proof. intros H. f_equal. apply Qc_is_canon, Qeq_bool_eq, H. Qed.

(** Evaluates an equation between closed numbers. *)
Ltac number_compute :=
  vm_compute;
  first [ reflexivity | apply Fin_eq_compute; vm_compute; reflexivity ].

Lemma Qc_ltb_lt (x y : Qc) : Qc_ltb x y = true <-> x < y.
Proof.
  unfold Qc_ltb. destruct (Qclt_le_dec x y) as [H | H].
  - tauto.
  - split; [discriminate | intros H'; exfalso; qc_to_q; lra].
Qed.

Lemma Qc_ltb_ge (x y : Qc) : Qc_ltb x y = false <-> y <= x.
Proof.
  unfold Qc_ltb. destruct (Qclt_le_dec x y) as [H | H].
  - split; [discriminate | intros H'; exfalso; qc_to_q; lra].
  - tauto.
Qed.

Lemma Qc_eqb_eq (x y : Qc) : Qc_eqb x y = true <-> x = y.
Proof. unfold Qc_eqb. destruct (Qc_eq_dec x y); split; congruence. Qed.

Lemma Qc_eqb_neq (x y : Qc) : Qc_eqb x y = false <-> x <> y.
Proof. unfold Qc_eqb. destruct (Qc_eq_dec x y); split; congruence. Qed.

Lemma Qc_div_pos_neg (x y : Qc) : 0 < x -> y < 0 -> x / y < 0.
Proof.
  intros Hx Hy. qc_to_q.
  assert (H : (this y * / this y == 1)%Q) by (apply Qmult_inv_r; lra).
  set (i := (/ this y)%Q) in *. nra.
Qed.

(** ** Debt payoff *)

Section PayoffFacts.
Import DebtsPage.
Variable ln : Qc -> Qc.

Lemma monthlyRate_number (r : Qc) :
  div (div (Fin r) (lit 100)) (lit 12) = Fin (monthlyRate r).
Proof. reflexivity. Qed.

(** A payment below the month's interest: the logarithm's argument is
    negative and the result is [NaN]. *)
Lemma calculatePayoffDate_below_interest (b r p : Qc) :
  0 < p -> p < b * monthlyRate r ->
  calculatePayoffDate ln (Fin b) (Fin r) (Fin p) = NaN.
Proof.
  intros Hp Hlt. unfold calculatePayoffDate.
  rewrite monthlyRate_number. cbn [mul sub add neg].
  set (d := p + - (b * monthlyRate r)).
  assert (Hd : d < 0) by (subst d; qc_to_q; lra).
  assert (Hd0 : Qc_eqb d 0 = false).
  { apply Qc_eqb_neq. qc_to_q. lra. }
  cbn [div]. rewrite Hd0. cbn [Math_log].
  assert (Hq : Qc_ltb (p / d) 0 = true)
    by (apply Qc_ltb_lt, Qc_div_pos_neg; assumption).
  rewrite Hq. reflexivity.
Qed.

(** A payment equal to the month's interest: the division by zero gives
    [+Infinity], which the logarithm and the ceiling keep. *)
Lemma calculatePayoffDate_equal_interest (b r p : Qc) :
  (forall x, 1 < x -> 0 < ln x) ->
  0 < p -> 0 <= r -> p = b * monthlyRate r ->
  calculatePayoffDate ln (Fin b) (Fin r) (Fin p) = PInf.
Proof.
  intros Hln Hp Hr Heq. unfold calculatePayoffDate.
  rewrite monthlyRate_number. unfold lit. cbn [mul sub add neg].
  assert (Hd : p + - (b * monthlyRate r) = 0) by (rewrite <- Heq; ring).
  rewrite Hd. cbn [div].
  replace (Qc_eqb 0 0) with true by (symmetry; apply Qc_eqb_eq; reflexivity).
  unfold scale_inf.
  replace (Qc_ltb 0 p) with true by (symmetry; apply Qc_ltb_lt; exact Hp).
  cbn [Math_log].
  assert (Hm : 0 < monthlyRate r).
  { assert (Hm0 : 0 <= monthlyRate r) by (unfold monthlyRate; qc_to_q; lra).
    assert (Hne : monthlyRate r <> 0).
    { intros E. rewrite E in Heq. qc_to_q. lra. }
    qc_to_q. lra. }
  set (a := Q2Qc 1 + monthlyRate r).
  assert (Ha : 1 < a) by (subst a; qc_to_q; lra).
  assert (Ha1 : Qc_ltb a 0 = false) by (apply Qc_ltb_ge; qc_to_q; lra).
  assert (Ha2 : Qc_eqb a 0 = false) by (apply Qc_eqb_neq; qc_to_q; lra).
  rewrite Ha1, Ha2.
  assert (Hl : Qc_ltb (ln a) 0 = false).
  { apply Qc_ltb_ge. apply Qclt_le_weak, Hln, Ha. }
  cbn [div]. rewrite Hl. reflexivity.
Qed.


(** At a zero rate both logarithms are [Math.log(1)], and the quotient is
    [0 / 0]. *)
Lemma calculatePayoffDate_zero_rate (b p : Qc) :
  ln 1 = 0 -> p <> 0 ->
  calculatePayoffDate ln (Fin b) (lit 0) (Fin p) = NaN.
Proof.
  intros Hln Hp. unfold calculatePayoffDate.
  assert (Hr : div (div (lit 0) (lit 100)) (lit 12) = Fin 0).
  { cbn. f_equal. apply Qc_is_canon. reflexivity. }
  rewrite Hr. cbn [mul sub add neg lit].
  replace (p + - (b * 0)) with p by ring.
  replace (Q2Qc 1 + 0) with 1 by ring.
  cbn [div]. rewrite (proj2 (Qc_eqb_neq p 0) Hp).
  replace (p / p) with 1 by (field; exact Hp).
  cbn [Math_log].
  replace (Qc_ltb 1 0) with false by reflexivity.
  replace (Qc_eqb 1 0) with false by reflexivity.
  rewrite Hln. cbn [div].
  replace (Qc_eqb 0 0) with true by reflexivity.
  reflexivity.
Qed.
End PayoffFacts.

(** C1 (code defect).  For a debt with a positive payment, a non-negative
    rate and [payment <= balance * (rate / 100 / 12)], [calculatePayoffDate]
    raises no UnpayableDebt failure: it returns [+Infinity] when the payment
    equals the month's interest and [NaN] when it is below it, the two
    values the claim rules out. *)
Theorem calculatePayoffDate_unpayable (ln : Qc -> Qc) (b r p : Qc) :
  (forall x, 1 < x -> 0 < ln x) ->
  0 < p -> 0 <= r -> p <= b * DebtsPage.monthlyRate r ->
  DebtsPage.calculatePayoffDate ln (Fin b) (Fin r) (Fin p)
  = (if Qc_eqb p (b * DebtsPage.monthlyRate r) then PInf else NaN).
Proof.
  intros Hln Hp Hr Hle.
  destruct (Qc_eqb p (b * DebtsPage.monthlyRate r)) eqn:E.
  - apply Qc_eqb_eq in E.
    apply calculatePayoffDate_equal_interest; assumption.
  - apply Qc_eqb_neq in E.
    apply calculatePayoffDate_below_interest; [assumption |].
    qc_to_q. lra.
Qed.

Lemma ln_tangent_pos (x : Qc) : 1 < x -> 0 < ln_tangent x.
Proof. unfold ln_tangent. intros H. qc_to_q. lra. Qed.

Lemma calculatePayoffDate_unpayable_witness :
  (Q2Qc 150 <= Q2Qc 10000 * DebtsPage.monthlyRate (Q2Qc 24))
  /\ DebtsPage.calculatePayoffDate ln_tangent (lit 10000) (lit 24) (lit 150) = NaN.
Proof.
  split.
  - vm_compute. discriminate.
  - apply (calculatePayoffDate_unpayable ln_tangent (Q2Qc 10000) (Q2Qc 24) (Q2Qc 150)).
    + exact ln_tangent_pos.
    + reflexivity.
    + vm_compute. discriminate.
    + vm_compute. discriminate.
Defined.

(** C2 (code defect).  At the zero-rate input (balance 1000, rate 0, payment
    100) [calculatePayoffDate] has no [ceil(balance / payment)] branch: both
    logarithms are [Math.log(1) = 0], the quotient is [0 / 0], and the
    result is [NaN] rather than 10. *)
Theorem calculatePayoffDate_zero_rate_boundary (ln : Qc -> Qc) :
  ln 1 = 0 ->
  DebtsPage.calculatePayoffDate ln (lit 1000) (lit 0) (lit 100) = NaN
  /\ Math_ceil (div (lit 1000) (lit 100)) = lit 10.
Proof.
  intros Hln. split.
  - apply calculatePayoffDate_zero_rate; [exact Hln |].
    intros E. apply Qc_eq_iff in E. vm_compute in E. discriminate.
  - number_compute.
Qed.

Lemma calculatePayoffDate_zero_rate_boundary_witness :
  ln_tangent 1 = 0
  /\ DebtsPage.calculatePayoffDate ln_tangent (lit 1000) (lit 0) (lit 100) = NaN.
Proof.
  assert (H : ln_tangent 1 = 0) by (apply Qc_is_canon; reflexivity).
  split; [exact H |].
  exact (proj1 (calculatePayoffDate_zero_rate_boundary ln_tangent H)).
Defined.

(** ** Sums of numbers *)

Lemma add_comm (x y : number) : add x y = add y x.
Proof. destruct x, y; cbn; try reflexivity. f_equal. ring. Qed.

Lemma add_assoc (x y z : number) : add x (add y z) = add (add x y) z.
Proof. destruct x, y, z; cbn; try reflexivity. f_equal. ring. Qed.

Lemma add_0_l (x : number) : add (lit 0) x = x.
Proof. destruct x; cbn; try reflexivity. f_equal. ring. Qed.

Lemma add_0_r (x : number) : add x (lit 0) = x.
Proof. rewrite add_comm. apply add_0_l. Qed.

(** [reduce((sum, x) => sum + f(x), init)] adds the sum of the [f x] to
    [init]. *)
Lemma reduce_add_sum {A : Type} (f : A -> number) (xs : list A) (init : number) :
  fold_left (fun sum x => add sum (f x)) xs init = add init (Spec.sum (map f xs)).
Proof.
  revert init. induction xs as [| x xs IH]; intros init; cbn.
  - symmetry. apply add_0_r.
  - rewrite IH. symmetry. apply add_assoc.
Qed.

Lemma reduce_add_sum_0 {A : Type} (f : A -> number) (xs : list A) :
  fold_left (fun sum x => add sum (f x)) xs (lit 0) = Spec.sum (map f xs).
Proof. rewrite reduce_add_sum. apply add_0_l. Qed.

Lemma filter_remove_middle {A : Type} (keep : A -> bool) (l1 l2 : list A) (a : A) :
  keep a = false -> filter keep (l1 ++ a :: l2) = filter keep (l1 ++ l2).
Proof.
  intros Ha. rewrite !filter_app. cbn. rewrite Ha. reflexivity.
Qed.

(** ** Net position *)

(** C3, as stated, fails: a credit card with a positive balance of 100 is
    left out of [totalAssets], while the rule of the claim counts it. *)
Lemma totalAssets_credit_float_counterexample :
  AccountsPage.totalAssets [floatCard] = lit 0
  /\ Spec.totalAssets [floatCard] = lit 100
  /\ AccountsPage.totalAssets [floatCard] <> Spec.totalAssets [floatCard].
Proof.
  split; [number_compute |]. split; [number_compute |].
  intros E. vm_compute in E. discriminate E.
Qed.

(** The accounts page written by the deployment script sums every positive
    balance, whatever the category. *)
Lemma deployed_totalAssets_all_positive (accounts : list DeployedAccountsPage.Account) :
  DeployedAccountsPage.totalAssets accounts
  = Spec.sum (map DeployedAccountsPage.balance
      (filter (fun a => gt (DeployedAccountsPage.balance a) (lit 0)) accounts)).
Proof. unfold DeployedAccountsPage.totalAssets. apply reduce_add_sum_0. Qed.

(** C3 (amended).  For every account list, [totalAssets] of the accounts
    page is the sum of the balances of the accounts with category other
    than credit and a balance above 0; an account of category credit
    contributes nothing, whatever its balance.  The accounts page that the
    deployment script writes sums every balance above 0, whatever the
    category. *)
Theorem totalAssets_non_credit_positive
    (accounts : list AccountsPage.Account)
    (deployed : list DeployedAccountsPage.Account) :
  AccountsPage.totalAssets accounts
  = Spec.sum (map AccountsPage.balance
      (filter (fun a =>
                 negb (AccountsPage.AccountType_eqb (AccountsPage.type a) AccountsPage.credit)
                 && gt (AccountsPage.balance a) (lit 0)) accounts))
  /\ (forall before after card,
        AccountsPage.type card = AccountsPage.credit ->
        AccountsPage.totalAssets (before ++ card :: after)
        = AccountsPage.totalAssets (before ++ after))
  /\ DeployedAccountsPage.totalAssets deployed
     = Spec.sum (map DeployedAccountsPage.balance
         (filter (fun a => gt (DeployedAccountsPage.balance a) (lit 0)) deployed)).
Proof.
  split; [| split].
  - unfold AccountsPage.totalAssets. apply reduce_add_sum_0.
  - intros before after card Hc. unfold AccountsPage.totalAssets.
    rewrite filter_remove_middle; [reflexivity |].
    rewrite Hc. reflexivity.
  - apply deployed_totalAssets_all_positive.
Qed.

(** C8.  For every account list, of the accounts page and of the page the
    deployment script writes alike, [netWorth] is [totalAssets] minus
    [totalLiabilities], and on the empty list the three are 0. *)
Theorem netWorth_assets_minus_liabilities
    (accounts : list AccountsPage.Account)
    (deployed : list DeployedAccountsPage.Account) :
  (AccountsPage.netWorth accounts
   = sub (AccountsPage.totalAssets accounts) (AccountsPage.totalLiabilities accounts)
   /\ AccountsPage.totalAssets [] = lit 0
   /\ AccountsPage.totalLiabilities [] = lit 0
   /\ AccountsPage.netWorth [] = lit 0)
  /\ (DeployedAccountsPage.netWorth deployed
      = sub (DeployedAccountsPage.totalAssets deployed)
            (DeployedAccountsPage.totalLiabilities deployed)
      /\ DeployedAccountsPage.totalAssets [] = lit 0
      /\ DeployedAccountsPage.totalLiabilities [] = lit 0
      /\ DeployedAccountsPage.netWorth [] = lit 0).
Proof.
  split.
  - split; [reflexivity |]. split; [reflexivity |].
    split; [reflexivity | number_compute].
  - split; [reflexivity |]. split; [reflexivity |].
    split; [reflexivity | number_compute].
Qed.

(** ** Pay-period income *)

(** C4, as stated, fails: for a monthly income of 4500 the page computes
    [4500 * 12 / 26 = 27000/13], while the rule of the claim gives
    [4500 * (26 / 12) = 9750]. *)
Lemma biWeeklyIncome_counterexample :
  BudgetPage.biWeeklyIncome sampleBudget = lit (27000 # 13)
  /\ Spec.periodIncome (BudgetPage.monthlyIncome sampleBudget) Spec.biweekly = lit 9750
  /\ BudgetPage.biWeeklyIncome sampleBudget
     <> Spec.periodIncome (BudgetPage.monthlyIncome sampleBudget) Spec.biweekly.
Proof.
  split; [number_compute |]. split; [number_compute |].
  intros E. vm_compute in E. discriminate E.
Qed.

Lemma scale_inf_pos (inf : number) (q : Qc) : 0 < q -> scale_inf inf q = inf.
Proof.
  intros H. unfold scale_inf. rewrite (proj2 (Qc_ltb_lt 0 q) H). reflexivity.
Qed.

(** C4 (amended).  For every monthly income, the per-period income of the
    budget page, which it computes for the bi-weekly frequency only, is
    [monthlyIncome * (12 / periodsPerYear(bi-weekly))], with 26 periods in
    the year: the year's income over 26 periods, so that 26 period incomes
    make 12 monthly incomes. *)
Theorem biWeeklyIncome_year_over_26 (budget : BudgetPage.Budget) :
  BudgetPage.biWeeklyIncome budget
  = mul (BudgetPage.monthlyIncome budget)
        (div (lit 12) (Spec.periodsPerYear Spec.biweekly))
  /\ mul (BudgetPage.biWeeklyIncome budget) (lit 26)
     = mul (BudgetPage.monthlyIncome budget) (lit 12).
Proof.
  unfold BudgetPage.biWeeklyIncome.
  destruct (BudgetPage.monthlyIncome budget) as [m | | |].
  - split.
    + cbn. f_equal. qc_to_q. field.
    + cbn. f_equal. qc_to_q. field.
  - split; reflexivity.
  - split; reflexivity.
  - split; reflexivity.
Qed.

(** ** Savings goals *)

(** C5, as stated, fails: with 1000 left to save and a monthly contribution
    of 0, [calculateMonthsRemaining] returns the finite value 0, where the
    rule of the claim gives the infinity sentinel. *)
Lemma calculateMonthsRemaining_counterexample :
  SavingsPage.calculateMonthsRemaining "2024-12-31" (lit 0) (lit 1000) (lit 0) = lit 0
  /\ isFinite (SavingsPage.calculateMonthsRemaining "2024-12-31" (lit 0) (lit 1000) (lit 0))
     = true
  /\ Spec.monthsNeeded (lit 1000) (lit 0) (lit 0) = PInf.
Proof.
  split; [number_compute |]. split; reflexivity.
Qed.

Lemma gt_0_not_eqb_0 (x : number) : gt x (lit 0) = true -> eqb x (lit 0) = false.
Proof.
  destruct x as [a | | |]; cbn; try reflexivity.
  intros H. apply Qc_ltb_lt in H. apply Qc_eqb_neq. qc_to_q. lra.
Qed.

(** C5 (amended).  For every savings goal with [target - current > 0] and
    [monthlyContribution <= 0], [calculateMonthsRemaining] returns 0, a
    finite value, where the rule of the specification has the infinity
    sentinel; it reports no failure. *)
Theorem calculateMonthsRemaining_no_contribution
    (targetDate : string) (currentAmount targetAmount monthlyContribution : number) :
  gt (sub targetAmount currentAmount) (lit 0) = true ->
  le monthlyContribution (lit 0) = true ->
  SavingsPage.calculateMonthsRemaining targetDate currentAmount targetAmount
    monthlyContribution = lit 0
  /\ Spec.monthsNeeded targetAmount currentAmount monthlyContribution = PInf.
Proof.
  intros Hr Hc. split.
  - unfold SavingsPage.calculateMonthsRemaining.
    rewrite Hc, orb_true_r. reflexivity.
  - unfold Spec.monthsNeeded. rewrite Hr.
    rewrite (gt_0_not_eqb_0 _ Hr), Hc. reflexivity.
Qed.

Lemma calculateMonthsRemaining_no_contribution_witness :
  gt (sub (lit 1000) (lit 0)) (lit 0) = true
  /\ le (lit 0) (lit 0) = true
  /\ SavingsPage.calculateMonthsRemaining "2024-12-31" (lit 0) (lit 1000) (lit 0) = lit 0.
Proof.
  split; [reflexivity |]. split; [reflexivity |].
  apply (calculateMonthsRemaining_no_contribution "2024-12-31" (lit 0) (lit 1000) (lit 0));
    reflexivity.
Defined.

(** ** Bills *)

(** C6, as stated, fails: the unpaid Internet bill of the page, due on
    2024-01-20 and stored with [isOverdue = false], is shown as Pending
    whatever the date, while on 2024-02-01 the rule of the claim makes it
    Overdue. *)
Lemma getBillStatusText_counterexample :
  lt (Dates.new_Date (BillsPage.dueDate internetBill)) (Dates.new_Date "2024-02-01") = true
  /\ BillsPage.getBillStatusText internetBill = "Pending"%string
  /\ Spec.statusText
       (Spec.classify (BillsPage.dueDate internetBill) (BillsPage.isPaid internetBill)
          "2024-02-01") = "Overdue"%string.
Proof.
  split; [vm_compute; reflexivity |]. split; [reflexivity |].
  vm_compute. reflexivity.
Qed.

(** C6 (amended).  For every bill, the status is Paid if the paid flag is
    set, whatever the dates; otherwise Overdue exactly when the stored
    [isOverdue] flag is set; otherwise Pending.  The status is read from the
    two stored flags alone, and every bill has exactly one of the three
    statuses. *)
Theorem getBillStatusText_from_flags (bill : BillsPage.Bill) :
  (BillsPage.isPaid bill = true ->
     BillsPage.getBillStatusText bill = "Paid"%string)
  /\ (BillsPage.isPaid bill = false ->
      (BillsPage.getBillStatusText bill = "Overdue"%string
       <-> BillsPage.isOverdue bill = true))
  /\ (BillsPage.isPaid bill = false ->
      (BillsPage.getBillStatusText bill = "Pending"%string
       <-> BillsPage.isOverdue bill = false))
  /\ (forall other,
        BillsPage.isPaid other = BillsPage.isPaid bill ->
        BillsPage.isOverdue other = BillsPage.isOverdue bill ->
        BillsPage.getBillStatusText other = BillsPage.getBillStatusText bill)
  /\ (exists! s, BillsPage.getBillStatusText bill = Spec.statusText s).
Proof.
  assert (Hinj : forall s s', Spec.statusText s = Spec.statusText s' -> s = s')
    by (intros [] []; cbn; intros E; try reflexivity; discriminate E).
  unfold BillsPage.getBillStatusText.
  destruct (BillsPage.isPaid bill) eqn:Hp, (BillsPage.isOverdue bill) eqn:Ho;
    (split; [intros; try reflexivity; discriminate |]);
    (split; [intros; try (split; intros; try reflexivity; discriminate); discriminate |]);
    (split; [intros; try (split; intros; try reflexivity; discriminate); discriminate |]);
    (split; [intros other H1 H2; rewrite H1, ?H2; reflexivity |]).
  - exists Spec.Paid. split; [reflexivity | intros s' E; apply Hinj; exact E].
  - exists Spec.Paid. split; [reflexivity | intros s' E; apply Hinj; exact E].
  - exists Spec.Overdue. split; [reflexivity | intros s' E; apply Hinj; exact E].
  - exists Spec.Pending. split; [reflexivity | intros s' E; apply Hinj; exact E].
Qed.

(** ** The clock *)

Lemma inject_Z_minus_1 (z : Z) : (inject_Z (z - 1) == inject_Z z - 1)%Q.
Proof. unfold Z.sub. rewrite inject_Z_plus. reflexivity. Qed.

Lemma Qceiling_minus_1 (x : Q) : Qceiling (x - 1) = (Qceiling x - 1)%Z.
Proof.
  pose proof (Qle_ceiling x) as H1. pose proof (Qceiling_lt x) as H2.
  pose proof (Qle_ceiling (x - 1)) as H3. pose proof (Qceiling_lt (x - 1)) as H4.
  rewrite inject_Z_minus_1 in H2, H4.
  assert (Ha : (Qceiling (x - 1) < Qceiling x)%Z).
  { rewrite Zlt_Qlt. lra. }
  assert (Hb : (Qceiling x - 1 < Qceiling (x - 1) + 1)%Z).
  { rewrite Zlt_Qlt. rewrite inject_Z_minus_1, inject_Z_plus.
    change (inject_Z 1) with 1%Q. lra. }
  lia.
Qed.

Lemma msPerDay_number :
  mul (mul (mul (lit 1000) (lit 60)) (lit 60)) (lit 24) = lit 86400000.
Proof. number_compute. Qed.

Lemma msPerMonth_number :
  mul (mul (mul (mul (lit 1000) (lit 60)) (lit 60)) (lit 24)) (lit 30) = lit 2592000000.
Proof. number_compute. Qed.

(** Days between a time value and the clock, one day later. *)
Lemma days_one_day_later (d : number) (c : Z) :
  Math_ceil (div (sub d (Dates.ofZ (c + Dates.msPerDay))) (lit 86400000))
  = sub (Math_ceil (div (sub d (Dates.ofZ c)) (lit 86400000))) (lit 1).
Proof.
  destruct d as [t | | |]; try reflexivity.
  unfold Dates.ofZ, lit, sub. cbn [neg add div].
  replace (Qc_eqb (Q2Qc 86400000) 0) with false by reflexivity.
  cbn [Math_ceil add neg]. f_equal. apply Qc_is_canon.
  rewrite this_plus, this_opp, !this_Q2Qc.
  change (- (1))%Q with (inject_Z (-1)).
  rewrite <- inject_Z_plus, inject_Z_injective.
  match goal with
  | |- _ = (?z + -1)%Z => change (z + -1)%Z with (z - 1)%Z
  end.
  rewrite <- Qceiling_minus_1. apply Qceiling_comp.
  rewrite !this_div, !this_plus, !this_opp, !this_Q2Qc.
  rewrite inject_Z_plus. change (inject_Z Dates.msPerDay) with 86400000%Q.
  field.
Qed.

(** C7, as stated, fails: [getDaysUntilDue] takes the due date alone and
    reads the clock with [new Date()]; on the same due date it returns 5
    when the clock reads 2024-01-10 and -5 when it reads 2024-01-20. *)
Lemma getDaysUntilDue_clock_counterexample :
  BillsPage.getDaysUntilDue "2024-01-15" jan10 = lit 5
  /\ BillsPage.getDaysUntilDue "2024-01-15" jan20 = lit (-5)
  /\ BillsPage.getDaysUntilDue "2024-01-15" jan10
     <> BillsPage.getDaysUntilDue "2024-01-15" jan20.
Proof.
  split; [number_compute |]. split; [number_compute |].
  intros E. vm_compute in E. discriminate E.
Qed.

Lemma le_Fin_mono (x : number) (a b : Qc) :
  a <= b -> le x (Fin a) = true -> le x (Fin b) = true.
Proof.
  intros Hab. destruct x as [q | | |]; unfold le; cbn [lt eqb];
    try (intros H; exact H).
  intros H. apply orb_true_iff in H.
  assert (Hqa : q <= a).
  { destruct H as [H | H].
    - apply Qc_ltb_lt in H. qc_to_q. lra.
    - apply Qc_eqb_eq in H. subst q. qc_to_q. lra. }
  apply orb_true_iff.
  destruct (Qc_eqb q b) eqn:E; [right; reflexivity | left].
  apply Qc_eqb_neq in E. apply Qc_ltb_lt. qc_to_q. lra.
Qed.

(** Months between a time value and the clock shrink as the clock
    advances. *)
Lemma months_clock_antitone (t : Qc) (c ms : Z) :
  (0 <= ms)%Z ->
  exists a b,
    Math_ceil (div (sub (Fin t) (Dates.ofZ (c + ms))) (lit 2592000000)) = Fin a
    /\ Math_ceil (div (sub (Fin t) (Dates.ofZ c)) (lit 2592000000)) = Fin b
    /\ a <= b.
Proof.
  intros Hms. unfold Dates.ofZ, lit, sub. cbn [neg add div].
  replace (Qc_eqb (Q2Qc 2592000000) 0) with false by reflexivity.
  cbn [Math_ceil]. eexists. eexists.
  split; [reflexivity |]. split; [reflexivity |].
  unfold Qcle. rewrite !this_Q2Qc. rewrite <- Zle_Qle.
  apply Qceiling_resp_le.
  rewrite !this_div, !this_plus, !this_opp, !this_Q2Qc.
  rewrite inject_Z_plus.
  assert (H : (0 <= inject_Z ms)%Q) by (rewrite Zle_Qle in Hms; exact Hms).
  unfold Qdiv. change (/ 2592000000)%Q with (1 # 2592000000)%Q. lra.
Qed.

(** C7 (amended).  [getDaysUntilDue] and [isOnTrack] take no as-of
    parameter and read the ambient clock with [new Date()]: their output is
    a function of their input and of the clock reading.  At one clock
    reading identical inputs give identical outputs; a clock one day later
    lowers [getDaysUntilDue] by exactly 1, and a goal on track at a later
    clock reading is on track at every earlier one. *)
Theorem clock_reading_determines_output :
  (forall dueDate goal w1 w2,
      Ambient.clock w1 = Ambient.clock w2 ->
      BillsPage.getDaysUntilDue dueDate w1 = BillsPage.getDaysUntilDue dueDate w2
      /\ SavingsPage.isOnTrack goal w1 = SavingsPage.isOnTrack goal w2)
  /\ (forall dueDate w,
        BillsPage.getDaysUntilDue dueDate (Ambient.later Dates.msPerDay w)
        = sub (BillsPage.getDaysUntilDue dueDate w) (lit 1))
  /\ (forall goal w ms,
        (0 <= ms)%Z ->
        SavingsPage.isOnTrack goal (Ambient.later ms w) = true ->
        SavingsPage.isOnTrack goal w = true).
Proof.
  split; [| split].
  - intros dueDate goal [c1] [c2] E. cbn in E. subst c2. split; reflexivity.
  - intros dueDate [c].
    unfold BillsPage.getDaysUntilDue, Ambient.bind, Ambient.ret,
      Ambient.new_Date_now, Ambient.later, Dates.getTime.
    cbn [Ambient.clock]. rewrite msPerDay_number. apply days_one_day_later.
  - intros goal [c] ms Hms.
    unfold SavingsPage.isOnTrack, Ambient.bind, Ambient.ret,
      Ambient.new_Date_now, Ambient.later, Dates.getTime.
    cbn [Ambient.clock]. rewrite msPerMonth_number.
    generalize (SavingsPage.calculateMonthsRemaining (SavingsPage.targetDate goal)
                  (SavingsPage.currentAmount goal) (SavingsPage.targetAmount goal)
                  (SavingsPage.monthlyContribution goal)) as needed.
    intros needed.
    destruct (Dates.new_Date (SavingsPage.targetDate goal)) as [t | | |];
      try (intros H; exact H).
    destruct (months_clock_antitone t c ms Hms) as (a & b & Ha & Hb & Hab).
    rewrite Ha, Hb. apply le_Fin_mono, Hab.
Qed.

(** ** Transactions *)

(** C9.  For every transaction list, [totalIncome] is the sum of the
    amounts of the income transactions, [totalExpenses] the sum of the
    absolute amounts of the expense transactions and [netAmount] their
    difference; a transaction of type transfer, wherever it stands in the
    list, changes none of the three. *)
Theorem transfer_changes_no_aggregate
    (before after : list TransactionsPage.Transaction)
    (t : TransactionsPage.Transaction) :
  TransactionsPage.type t = TransactionsPage.transfer ->
  let transactions := before ++ t :: after in
  TransactionsPage.totalIncome transactions
  = Spec.sum (map TransactionsPage.amount
      (filter (fun x => TransactionsPage.TransactionType_eqb
                          (TransactionsPage.type x) TransactionsPage.income)
         transactions))
  /\ TransactionsPage.totalExpenses transactions
     = Spec.sum (map (fun x => Math_abs (TransactionsPage.amount x))
         (filter (fun x => TransactionsPage.TransactionType_eqb
                             (TransactionsPage.type x) TransactionsPage.expense)
            transactions))
  /\ TransactionsPage.netAmount transactions
     = sub (TransactionsPage.totalIncome transactions)
           (TransactionsPage.totalExpenses transactions)
  /\ TransactionsPage.totalIncome transactions
     = TransactionsPage.totalIncome (before ++ after)
  /\ TransactionsPage.totalExpenses transactions
     = TransactionsPage.totalExpenses (before ++ after)
  /\ TransactionsPage.netAmount transactions
     = TransactionsPage.netAmount (before ++ after).
Proof.
  intros Ht transactions.
  assert (Hi : TransactionsPage.totalIncome transactions
               = TransactionsPage.totalIncome (before ++ after)).
  { unfold TransactionsPage.totalIncome, transactions.
    rewrite filter_remove_middle; [reflexivity | rewrite Ht; reflexivity]. }
  assert (He : TransactionsPage.totalExpenses transactions
               = TransactionsPage.totalExpenses (before ++ after)).
  { unfold TransactionsPage.totalExpenses, transactions.
    rewrite filter_remove_middle; [reflexivity | rewrite Ht; reflexivity]. }
  split; [apply reduce_add_sum_0 |].
  split; [unfold TransactionsPage.totalExpenses;
          apply (reduce_add_sum_0 (fun x => Math_abs (TransactionsPage.amount x))) |].
  split; [reflexivity |].
  split; [exact Hi |]. split; [exact He |].
  unfold TransactionsPage.netAmount. rewrite Hi, He. reflexivity.
Qed.

Lemma transfer_changes_no_aggregate_witness :
  TransactionsPage.type onlineTransfer = TransactionsPage.transfer
  /\ TransactionsPage.netAmount [salaryDeposit; onlineTransfer; groceryStore]
     = TransactionsPage.netAmount [salaryDeposit; groceryStore].
Proof.
  split; [reflexivity |].
  apply (transfer_changes_no_aggregate [salaryDeposit] [groceryStore] onlineTransfer).
  reflexivity.
Defined.

(** ** Overall savings progress *)

Lemma reduce_add_nonneg {A : Type} (f : A -> number) (xs : list A) (init : Qc) :
  0 <= init ->
  (forall x, In x xs -> exists q, f x = Fin q /\ 0 <= q) ->
  exists s, fold_left (fun sum x => add sum (f x)) xs (Fin init) = Fin s /\ 0 <= s.
Proof.
  revert init. induction xs as [| x xs IH]; intros init Hinit Hxs; cbn.
  - exists init. split; [reflexivity | exact Hinit].
  - destruct (Hxs x (or_introl eq_refl)) as (q & Hq & Hq0).
    rewrite Hq. cbn [add]. apply IH.
    + qc_to_q. lra.
    + intros y Hy. apply Hxs. right. exact Hy.
Qed.

(** C10.  For every list of goals whose active goals have a finite target
    amount that is not negative: if the summed target amount of the active
    goals is 0 then [overallProgress] is 0, the guard keeping the division
    from being evaluated; otherwise it is the summed current amount over
    the summed target amount, times 100. *)
Theorem overallProgress_division_guarded (goals : list SavingsPage.SavingsGoal) :
  (forall goal, In goal goals -> SavingsPage.isActive goal = true ->
                exists q, SavingsPage.targetAmount goal = Fin q /\ 0 <= q) ->
  (SavingsPage.totalTargetAmount goals = lit 0 ->
     SavingsPage.overallProgress goals = lit 0)
  /\ (SavingsPage.totalTargetAmount goals <> lit 0 ->
      SavingsPage.overallProgress goals
      = mul (div (SavingsPage.totalCurrentAmount goals)
                 (SavingsPage.totalTargetAmount goals)) (lit 100)).
Proof.
  intros Hgoals.
  assert (Hs : exists s, SavingsPage.totalTargetAmount goals = Fin s /\ 0 <= s).
  { unfold SavingsPage.totalTargetAmount, SavingsPage.activeGoals, lit.
    apply reduce_add_nonneg.
    - qc_to_q. lra.
    - intros g Hg. apply filter_In in Hg. destruct Hg as [Hin Hact].
      apply Hgoals; assumption. }
  destruct Hs as (s & Hs & Hs0).
  unfold SavingsPage.overallProgress. rewrite Hs. unfold gt, lit. cbn [lt].
  split.
  - intros E. injection E as E. subst s.
    replace (Qc_ltb (Q2Qc 0) (Q2Qc 0)) with false by reflexivity. reflexivity.
  - intros Hne.
    assert (Hpos : Qc_ltb (Q2Qc 0) s = true).
    { apply Qc_ltb_lt.
      assert (Hs' : s <> Q2Qc 0) by (intros E; apply Hne; rewrite E; reflexivity).
      qc_to_q. lra. }
    rewrite Hpos. reflexivity.
Qed.

Lemma overallProgress_division_guarded_witness :
  SavingsPage.totalTargetAmount pageGoals = lit 23000
  /\ SavingsPage.overallProgress pageGoals = lit (1180 # 23).
Proof.
  assert (Hgoals : forall goal, In goal pageGoals -> SavingsPage.isActive goal = true ->
                   exists q, SavingsPage.targetAmount goal = Fin q /\ 0 <= q).
  { intros goal Hin _. cbn in Hin.
    destruct Hin as [<- | [<- | [<- | [<- | []]]]];
      (eexists; split; [reflexivity | vm_compute; discriminate]). }
  assert (Htotal : SavingsPage.totalTargetAmount pageGoals = lit 23000)
    by number_compute.
  split; [exact Htotal |].
  rewrite (proj2 (overallProgress_division_guarded pageGoals Hgoals)).
  - number_compute.
  - rewrite Htotal. intros E. vm_compute in E. discriminate E.
Defined.

(** * Further properties of the pages *)

(** ** Bills page: totals, tabs and badges *)

Lemma sum_filter_split {A : Type} (f : A -> number) (keep : A -> bool) (xs : list A) :
  add (Spec.sum (map f (filter keep xs)))
      (Spec.sum (map f (filter (fun x => negb (keep x)) xs)))
  = Spec.sum (map f xs).
Proof.
  induction xs as [| x xs IH]; cbn [filter map Spec.sum].
  - apply add_0_l.
  - destruct (keep x); cbn [negb filter map Spec.sum]; rewrite <- IH.
    + symmetry. apply add_assoc.
    + rewrite !add_assoc. f_equal. apply add_comm.
Qed.

Lemma length_filter_split {A : Type} (keep : A -> bool) (xs : list A) :
  (List.length (filter keep xs) + List.length (filter (fun x => negb (keep x)) xs)
   = List.length xs)%nat.
Proof.
  induction xs as [| x xs IH]; cbn; [reflexivity |].
  destruct (keep x); cbn; lia.
Qed.

(** X1.  The paid and the unpaid bills split the bills: their counts add up
    to the number of bills and, in exact arithmetic, [totalPaid] plus
    [totalUnpaid] is [totalMonthlyBills]. *)
Theorem bills_paid_unpaid_split (bills : list BillsPage.Bill) :
  add (BillsPage.totalPaid bills) (BillsPage.totalUnpaid bills)
  = BillsPage.totalMonthlyBills bills
  /\ (List.length (BillsPage.paidBills bills) + List.length (BillsPage.unpaidBills bills)
      = List.length bills)%nat.
Proof.
  split.
  - unfold BillsPage.totalPaid, BillsPage.totalUnpaid, BillsPage.totalMonthlyBills,
      BillsPage.paidBills, BillsPage.unpaidBills.
    rewrite !reduce_add_sum_0. apply sum_filter_split.
  - apply (length_filter_split (fun bill => BillsPage.isPaid bill)).
Qed.

(** X2.  For a bill of the list: the paid tab lists it exactly when its
    badge reads Paid, the upcoming tab exactly when it reads Pending and the
    unpaid tab exactly when it does not read Paid; the overdue tab lists
    every bill whose stored overdue flag is set, a paid one included, whose
    badge reads Paid. *)
Theorem filteredBills_and_badge (bills : list BillsPage.Bill) (bill : BillsPage.Bill) :
  In bill bills ->
  (In bill (BillsPage.filteredBills "paid" bills)
   <-> BillsPage.getBillStatusText bill = "Paid"%string)
  /\ (In bill (BillsPage.filteredBills "upcoming" bills)
      <-> BillsPage.getBillStatusText bill = "Pending"%string)
  /\ (In bill (BillsPage.filteredBills "unpaid" bills)
      <-> BillsPage.getBillStatusText bill <> "Paid"%string)
  /\ (In bill (BillsPage.filteredBills "overdue" bills)
      <-> BillsPage.getBillStatusText bill = "Overdue"%string
          \/ (BillsPage.isOverdue bill = true
              /\ BillsPage.getBillStatusText bill = "Paid"%string)).
Proof.
  intros Hin. unfold BillsPage.filteredBills, BillsPage.getBillStatusText.
  rewrite !filter_In. cbn [String.eqb Ascii.eqb Bool.eqb andb].
  destruct (BillsPage.isPaid bill), (BillsPage.isOverdue bill); cbn;
    repeat split; intros; try tauto; try discriminate; try congruence;
    try (split; [assumption | reflexivity]);
    try (right; split; reflexivity); try (left; reflexivity);
    repeat match goal with
           | H : _ /\ _ |- _ => destruct H
           | H : _ \/ _ |- _ => destruct H
           end; try discriminate; try congruence.
Qed.

Lemma filteredBills_and_badge_witness :
  In carInsurancePaid [carInsurance; carInsurancePaid]
  /\ In carInsurancePaid (BillsPage.filteredBills "overdue" [carInsurance; carInsurancePaid])
  /\ BillsPage.getBillStatusText carInsurancePaid = "Paid"%string.
Proof.
  assert (Hin : In carInsurancePaid [carInsurance; carInsurancePaid])
    by (right; left; reflexivity).
  split; [exact Hin |]. split; [| reflexivity].
  apply (proj2 (proj2 (proj2 (filteredBills_and_badge _ _ Hin)))).
  right. split; reflexivity.
Defined.

(** X3.  A filter key other than paid, unpaid, overdue and upcoming, the
    key all of the first tab among them, filters nothing out: the page lists
    every bill. *)
Theorem filteredBills_other_key (selectedFilter : string) (bills : list BillsPage.Bill) :
  selectedFilter <> "paid"%string -> selectedFilter <> "unpaid"%string ->
  selectedFilter <> "overdue"%string -> selectedFilter <> "upcoming"%string ->
  BillsPage.filteredBills selectedFilter bills = bills.
Proof.
  intros H1 H2 H3 H4. unfold BillsPage.filteredBills.
  apply String.eqb_neq in H1, H2, H3, H4. rewrite H1, H2, H3, H4.
  induction bills as [| bill bills IH]; cbn; [reflexivity | rewrite IH; reflexivity].
Qed.

Lemma filteredBills_other_key_witness :
  BillsPage.filteredBills "all" [carInsurance; carInsurancePaid]
  = [carInsurance; carInsurancePaid].
Proof.
  apply (filteredBills_other_key "all"); discriminate.
Defined.

(** X4.  The colour, the icon and the text of the status badge classify
    the bills alike: two bills have the same text exactly when they have
    the same colour, and exactly when they have the same icon. *)
Theorem status_badge_consistent (b1 b2 : BillsPage.Bill) :
  (BillsPage.getBillStatusText b1 = BillsPage.getBillStatusText b2
   <-> BillsPage.getBillStatusColor b1 = BillsPage.getBillStatusColor b2)
  /\ (BillsPage.getBillStatusText b1 = BillsPage.getBillStatusText b2
      <-> BillsPage.getBillStatusIcon b1 = BillsPage.getBillStatusIcon b2).
Proof.
  unfold BillsPage.getBillStatusText, BillsPage.getBillStatusColor,
    BillsPage.getBillStatusIcon.
  destruct (BillsPage.isPaid b1), (BillsPage.isOverdue b1),
    (BillsPage.isPaid b2), (BillsPage.isOverdue b2);
    split; split; intros E; try reflexivity; discriminate E.
Qed.

(** ** Bills page: days until due *)

Lemma inject_Z_Qc_ceiling_bounds (x : Q) (n d : Z) (D : positive) :
  d = Z.pos D ->
  (x == inject_Z n * (1 # D))%Q ->
  ((Qceiling x - 1) * d < n <= Qceiling x * d)%Z.
Proof.
  intros -> Hx.
  pose proof (Qle_ceiling x) as H1. pose proof (Qceiling_lt x) as H2.
  rewrite inject_Z_minus_1 in H2.
  set (c := Qceiling x) in *. clearbody c.
  assert (H1' : (inject_Z n * (1 # D) <= inject_Z c)%Q) by (rewrite <- Hx; exact H1).
  assert (H2' : (inject_Z c - 1 < inject_Z n * (1 # D))%Q) by (rewrite <- Hx; exact H2).
  clear H1 H2.
  assert (HD : (inject_Z n * (1 # D) * inject_Z (Z.pos D) == inject_Z n)%Q).
  { unfold Qeq, Qmult, inject_Z. cbn. lia. }
  assert (Hpos : (0 < inject_Z (Z.pos D))%Q).
  { change 0%Q with (inject_Z 0). rewrite <- Zlt_Qlt. lia. }
  split.
  - rewrite Zlt_Qlt, inject_Z_mult, inject_Z_minus_1.
    rewrite <- HD. apply Qmult_lt_compat_r; assumption.
  - rewrite Zle_Qle, inject_Z_mult.
    rewrite <- HD. apply Qmult_le_compat_r; [assumption | apply Qlt_le_weak, Hpos].
Qed.

Lemma lt_ofZ (a b : Z) : lt (Dates.ofZ a) (Dates.ofZ b) = true <-> (a < b)%Z.
Proof.
  unfold Dates.ofZ. cbn [lt]. rewrite Qc_ltb_lt. unfold Qclt.
  rewrite !this_Q2Qc. rewrite <- Zlt_Qlt. reflexivity.
Qed.

Lemma eqb_ofZ (a b : Z) : eqb (Dates.ofZ a) (Dates.ofZ b) = true <-> a = b.
Proof.
  unfold Dates.ofZ. cbn [eqb]. rewrite Qc_eqb_eq, Qc_eq_iff.
  rewrite !this_Q2Qc. apply inject_Z_injective.
Qed.

Lemma le_ofZ (a b : Z) : le (Dates.ofZ a) (Dates.ofZ b) = true <-> (a <= b)%Z.
Proof.
  unfold le. rewrite orb_true_iff, lt_ofZ, eqb_ofZ. lia.
Qed.

(** The whole number of [unit]s, rounded up, from the clock to a time
    value. *)
Lemma ceil_time_difference (t c : Z) (D : positive) :
  exists n : Z,
    Math_ceil (div (sub (Dates.ofZ t) (Dates.ofZ c)) (lit (inject_Z (Z.pos D))))
    = Dates.ofZ n
    /\ ((n - 1) * Z.pos D < t - c <= n * Z.pos D)%Z.
Proof.
  unfold Dates.ofZ, lit, sub. cbn [neg add div].
  assert (H0 : Qc_eqb (Q2Qc (inject_Z (Z.pos D))) 0 = false).
  { apply Qc_eqb_neq. rewrite Qc_eq_iff, !this_Q2Qc.
    unfold Qeq, inject_Z. cbn. lia. }
  rewrite H0. cbn [Math_ceil]. eexists. split; [reflexivity |].
  apply (inject_Z_Qc_ceiling_bounds _ (t - c) (Z.pos D) D eq_refl).
  rewrite this_div, this_plus, this_opp, !this_Q2Qc.
  unfold Z.sub. rewrite inject_Z_plus, inject_Z_opp.
  unfold Qdiv. change (/ inject_Z (Z.pos D))%Q with (1 # D)%Q. ring.
Qed.

(** X5.  For a due date that is a valid date, with time value [t], and a
    clock reading [c]: [getDaysUntilDue] is the whole number [n] of days with
    [(n - 1) days < t - c <= n days]; it is negative exactly from one full
    day after [t] on, and 0 exactly during the day that starts at [t].  For
    an invalid date it is [NaN]. *)
Theorem getDaysUntilDue_bounds (dueDate : string) (w : Ambient.World) :
  (forall t, Dates.new_Date dueDate = Dates.ofZ t ->
     exists n : Z,
       BillsPage.getDaysUntilDue dueDate w = Dates.ofZ n
       /\ ((n - 1) * Dates.msPerDay < t - Ambient.clock w <= n * Dates.msPerDay)%Z
       /\ (lt (BillsPage.getDaysUntilDue dueDate w) (lit 0) = true
           <-> (t + Dates.msPerDay <= Ambient.clock w)%Z)
       /\ (eqb (BillsPage.getDaysUntilDue dueDate w) (lit 0) = true
           <-> (t <= Ambient.clock w < t + Dates.msPerDay)%Z))
  /\ (Dates.new_Date dueDate = NaN -> BillsPage.getDaysUntilDue dueDate w = NaN).
Proof.
  destruct w as [c].
  unfold BillsPage.getDaysUntilDue, Ambient.bind, Ambient.ret,
    Ambient.new_Date_now, Dates.getTime. cbn [Ambient.clock].
  rewrite msPerDay_number. split.
  - intros t Ht. rewrite Ht.
    destruct (ceil_time_difference t c 86400000) as (n & Hn & Hb).
    change (lit (inject_Z 86400000)) with (lit 86400000) in Hn.
    change (Z.pos 86400000) with Dates.msPerDay in Hb.
    exists n. rewrite Hn. split; [reflexivity |]. split; [exact Hb |].
    change (lit 0) with (Dates.ofZ 0). rewrite lt_ofZ, eqb_ofZ.
    unfold Dates.msPerDay in *. lia.
  - intros Ht. rewrite Ht. reflexivity.
Qed.

Lemma getDaysUntilDue_bounds_witness :
  Dates.new_Date "2024-01-15" = Dates.ofZ 1705276800000
  /\ exists n : Z,
       BillsPage.getDaysUntilDue "2024-01-15" jan10 = Dates.ofZ n
       /\ ((n - 1) * Dates.msPerDay < 1705276800000 - Ambient.clock jan10
           <= n * Dates.msPerDay)%Z.
Proof.
  assert (H : Dates.new_Date "2024-01-15" = Dates.ofZ 1705276800000) by reflexivity.
  split; [exact H |].
  destruct (proj1 (getDaysUntilDue_bounds "2024-01-15" jan10) 1705276800000%Z H)
    as (n & Hn & Hb & _).
  exists n. split; assumption.
Defined.

(** ** Savings page: months to goal and on track *)




(** X7.  For a goal with a valid target date, of time value [t], that is
    reached ([target - current <= 0]) or has no contribution
    ([monthlyContribution <= 0]), no month is needed, and [isOnTrack] is true
    exactly while the clock reads less than 30 days past [t]: the goal is
    shown Behind from 30 days after its target date on. *)
Theorem isOnTrack_no_months_needed (goal : SavingsPage.SavingsGoal)
    (w : Ambient.World) (t : Z) :
  Dates.new_Date (SavingsPage.targetDate goal) = Dates.ofZ t ->
  le (sub (SavingsPage.targetAmount goal) (SavingsPage.currentAmount goal)) (lit 0) = true
  \/ le (SavingsPage.monthlyContribution goal) (lit 0) = true ->
  (SavingsPage.isOnTrack goal w = true
   <-> (Ambient.clock w < t + 30 * Dates.msPerDay)%Z).
Proof.
  intros Ht Hzero. destruct w as [c].
  unfold SavingsPage.isOnTrack, Ambient.bind, Ambient.ret,
    Ambient.new_Date_now, Dates.getTime. cbn [Ambient.clock].
  rewrite msPerMonth_number, Ht.
  assert (Hneeded : SavingsPage.calculateMonthsRemaining (SavingsPage.targetDate goal)
                      (SavingsPage.currentAmount goal) (SavingsPage.targetAmount goal)
                      (SavingsPage.monthlyContribution goal) = Dates.ofZ 0).
  { unfold SavingsPage.calculateMonthsRemaining.
    destruct Hzero as [H | H]; rewrite H; [| rewrite orb_true_r]; reflexivity. }
  rewrite Hneeded.
  destruct (ceil_time_difference t c 2592000000) as (n & Hn & Hb).
  change (lit (inject_Z 2592000000)) with (lit 2592000000) in Hn.
  rewrite Hn, le_ofZ. unfold Dates.msPerDay. lia.
Qed.

Lemma isOnTrack_no_months_needed_witness :
  SavingsPage.isOnTrack
    (mkGoal "4" "Home Renovation" 15000 15000 "2024-03-01" "Home" true "2023-06-01" 0 100)
    {| Ambient.clock := 1711929600000 |} = false.
Proof.
  apply not_true_is_false. intros H.
  apply (isOnTrack_no_months_needed _ _ 1709251200000%Z) in H.
  - cbn in H. unfold Dates.msPerDay in H. lia.
  - reflexivity.
  - left. reflexivity.
Defined.

Lemma filter_none {A : Type} (keep : A -> bool) (xs : list A) :
  (forall x, In x xs -> keep x = false) -> filter keep xs = [].
Proof.
  induction xs as [| x xs IH]; intros H; cbn; [reflexivity |].
  rewrite (H x (or_introl eq_refl)). apply IH.
  intros y Hy. apply H. right. exact Hy.
Qed.

(** X8.  When no goal of the list is active, the average months to goal of
    the Your Progress card is [NaN]: the sum 0 is divided by the length 0 of
    the active goals, with no guard. *)
Theorem averageMonthsToGoal_no_active_goal (goals : list SavingsPage.SavingsGoal) :
  (forall goal, In goal goals -> SavingsPage.isActive goal = false) ->
  SavingsPage.averageMonthsToGoal goals = NaN.
Proof.
  intros H. unfold SavingsPage.averageMonthsToGoal, SavingsPage.activeGoals.
  rewrite (filter_none (fun goal => SavingsPage.isActive goal) goals H). reflexivity.
Qed.

Lemma averageMonthsToGoal_no_active_goal_witness :
  SavingsPage.averageMonthsToGoal
    [mkGoal "4" "Home Renovation" 15000 15000 "2024-03-01" "Home" false "2023-06-01" 0 100]
  = NaN.
Proof.
  apply averageMonthsToGoal_no_active_goal.
  intros goal [<- | []]. reflexivity.
Defined.

(** X9.  No goal is listed both as active and as completed, and a goal that
    is neither active nor at a progress of exactly 100 is listed in neither:
    the active, the completed and these dropped goals add up to the
    goals. *)
Theorem goals_active_completed_dropped (goals : list SavingsPage.SavingsGoal) :
  (forall goal, In goal (SavingsPage.activeGoals goals) ->
                ~ In goal (SavingsPage.completedGoals goals))
  /\ (List.length (SavingsPage.activeGoals goals)
      + List.length (SavingsPage.completedGoals goals)
      + List.length (filter (fun goal => negb (SavingsPage.isActive goal)
                                         && negb (eqb (SavingsPage.progress goal) (lit 100)))
                       goals)
      = List.length goals)%nat.
Proof.
  unfold SavingsPage.activeGoals, SavingsPage.completedGoals. split.
  - intros goal Ha Hc. apply filter_In in Ha, Hc.
    destruct Ha as [_ Ha], Hc as [_ Hc]. rewrite Ha in Hc. discriminate Hc.
  - induction goals as [| goal goals IH]; cbn [filter List.length]; [reflexivity |].
    destruct (SavingsPage.isActive goal),
      (eqb (SavingsPage.progress goal) (lit 100)); cbn [negb andb List.length]; lia.
Qed.

(** ** Debts page: payoff months and summary cards *)






Lemma reduce_add_zeros {A : Type} (f : A -> number) (xs : list A) :
  (forall x, In x xs -> f x = lit 0) ->
  fold_left (fun sum x => add sum (f x)) xs (lit 0) = lit 0.
Proof.
  induction xs as [| x xs IH]; intros H; cbn [fold_left]; [reflexivity |].
  rewrite (H x (or_introl eq_refl)).
  replace (add (lit 0) (lit 0)) with (lit 0) by (symmetry; apply add_0_l).
  apply IH. intros y Hy. apply H. right. exact Hy.
Qed.

(** X12.  When no debt has a balance left (every balance is 0, the rates
    being finite), and so too when there is no debt, [avgInterestRate] is
    [NaN]: the weighted sum 0 is divided by [totalDebt = 0], with no
    guard. *)
Theorem avgInterestRate_no_balance (debts : list DebtsPage.Debt) :
  (forall debt, In debt debts ->
     DebtsPage.currentBalance debt = lit 0
     /\ exists r, DebtsPage.interestRate debt = Fin r) ->
  DebtsPage.totalDebt debts = lit 0 /\ DebtsPage.avgInterestRate debts = NaN.
Proof.
  intros H.
  assert (HB : DebtsPage.totalDebt debts = lit 0).
  { apply reduce_add_zeros. intros d Hd. apply (H d Hd). }
  split; [exact HB |].
  unfold DebtsPage.avgInterestRate. rewrite HB.
  rewrite (reduce_add_zeros
             (fun debt => mul (DebtsPage.interestRate debt) (DebtsPage.currentBalance debt))).
  - reflexivity.
  - intros d Hd. destruct (H d Hd) as (Hb & r & Hr). rewrite Hb, Hr.
    unfold lit. cbn [mul]. f_equal. ring.
Qed.

Lemma avgInterestRate_no_balance_witness :
  DebtsPage.avgInterestRate
    [mkDebt "1" "Credit Card" 5000 0 18.5 150 "2025-08-15" 850 100] = NaN.
Proof.
  apply avgInterestRate_no_balance.
  intros debt [<- | []]. split; [reflexivity | eexists; reflexivity].
Defined.

Lemma debts_sums_finite (debts : list DebtsPage.Debt) :
  (forall debt, In debt debts ->
     exists p b, DebtsPage.principal debt = Fin p /\ DebtsPage.currentBalance debt = Fin b) ->
  exists P B,
    Spec.sum (map DebtsPage.principal debts) = Fin P
    /\ Spec.sum (map DebtsPage.currentBalance debts) = Fin B
    /\ Spec.sum (map (fun debt => sub (DebtsPage.principal debt)
                                      (DebtsPage.currentBalance debt)) debts)
       = Fin (P - B).
Proof.
  induction debts as [| debt debts IH]; intros H.
  - exists 0, 0. cbn. repeat split.
  - destruct (H debt (or_introl eq_refl)) as (p & b & Hp & Hb).
    destruct IH as (P & B & HP & HB & HD).
    { intros d Hd. apply H. right. exact Hd. }
    exists (p + P), (b + B). cbn [map Spec.sum].
    rewrite HP, HB, HD, Hp, Hb. cbn [sub neg add].
    split; [reflexivity |]. split; [reflexivity |]. f_equal. ring.
Qed.

(** X13.  For debts with finite principals and balances, in exact
    arithmetic, the cards Total Paid and Total Debt add up to the sum of
    the principals. *)
Theorem totalPaid_plus_totalDebt (debts : list DebtsPage.Debt) :
  (forall debt, In debt debts ->
     exists p b, DebtsPage.principal debt = Fin p /\ DebtsPage.currentBalance debt = Fin b) ->
  add (DebtsPage.totalPaid debts) (DebtsPage.totalDebt debts)
  = Spec.sum (map DebtsPage.principal debts).
Proof.
  intros H. unfold DebtsPage.totalPaid, DebtsPage.totalDebt.
  rewrite (reduce_add_sum_0 (fun debt => sub (DebtsPage.principal debt)
                                             (DebtsPage.currentBalance debt))).
  rewrite (reduce_add_sum_0 (fun debt => DebtsPage.currentBalance debt)).
  destruct (debts_sums_finite debts H) as (P & B & HP & HB & HD).
  change (map (fun debt => DebtsPage.currentBalance debt) debts)
    with (map DebtsPage.currentBalance debts).
  rewrite HP, HB, HD. cbn [add]. f_equal. ring.
Qed.

Lemma totalPaid_plus_totalDebt_witness :
  add (DebtsPage.totalPaid pageDebts) (DebtsPage.totalDebt pageDebts) = lit 20000.
Proof.
  rewrite totalPaid_plus_totalDebt.
  - number_compute.
  - intros debt [<- | [<- | []]]; eexists; eexists; split; reflexivity.
Defined.

(** ** Accounts page: what the totals count *)

(** X14.  An account of category credit whose balance is not below 0, or
    of another category whose balance is not above 0 (an overdrawn checking
    account, a credit float, a zero or [NaN] balance), is counted nowhere:
    wherever it stands in the list it changes none of [totalAssets],
    [totalLiabilities] and [netWorth]. *)
Theorem account_counted_nowhere
    (before after : list AccountsPage.Account) (account : AccountsPage.Account) :
  (AccountsPage.type account = AccountsPage.credit
   /\ lt (AccountsPage.balance account) (lit 0) = false)
  \/ (AccountsPage.type account <> AccountsPage.credit
      /\ gt (AccountsPage.balance account) (lit 0) = false) ->
  AccountsPage.totalAssets (before ++ account :: after)
  = AccountsPage.totalAssets (before ++ after)
  /\ AccountsPage.totalLiabilities (before ++ account :: after)
     = AccountsPage.totalLiabilities (before ++ after)
  /\ AccountsPage.netWorth (before ++ account :: after)
     = AccountsPage.netWorth (before ++ after).
Proof.
  intros H.
  assert (Ha : AccountsPage.totalAssets (before ++ account :: after)
               = AccountsPage.totalAssets (before ++ after)).
  { unfold AccountsPage.totalAssets. rewrite filter_remove_middle; [reflexivity |].
    destruct H as [[Ht Hb] | [Ht Hb]].
    - rewrite Ht. reflexivity.
    - rewrite Hb. apply andb_false_r. }
  assert (Hl : AccountsPage.totalLiabilities (before ++ account :: after)
               = AccountsPage.totalLiabilities (before ++ after)).
  { unfold AccountsPage.totalLiabilities. rewrite filter_remove_middle; [reflexivity |].
    destruct H as [[Ht Hb] | [Ht Hb]].
    - rewrite Hb. apply andb_false_r.
    - destruct (AccountsPage.type account); try reflexivity.
      contradiction Ht. reflexivity. }
  split; [exact Ha |]. split; [exact Hl |].
  unfold AccountsPage.netWorth. rewrite Ha, Hl. reflexivity.
Qed.

Lemma account_counted_nowhere_witness :
  AccountsPage.netWorth [emergencySavings; overdrawnChecking]
  = AccountsPage.netWorth [emergencySavings].
Proof.
  apply (account_counted_nowhere [emergencySavings] [] overdrawnChecking).
  right. split; [discriminate | reflexivity].
Defined.



(** X16.  For a balance that is a number, the colour of the balance does
    not depend on the category: it is red exactly when the balance is below
    0 and green otherwise.  A [NaN] balance is green on a credit account and
    red on any other. *)
Theorem getBalanceColor_by_sign (balance : number) (type : string) :
  (balance <> NaN ->
     AccountsPage.getBalanceColor balance type
     = (if lt balance (lit 0) then "text-red-600" else "text-green-600")%string)
  /\ AccountsPage.getBalanceColor NaN "credit" = "text-green-600"%string
  /\ (type <> "credit"%string ->
      AccountsPage.getBalanceColor NaN type = "text-red-600"%string).
Proof.
  split; [| split].
  - intros Hn. unfold AccountsPage.getBalanceColor.
    destruct (String.eqb type "credit"); [reflexivity |].
    destruct balance as [q | | |]; try reflexivity; [| contradiction Hn; reflexivity].
    unfold ge, le, lit. cbn [lt eqb].
    destruct (Qc_ltb q (Q2Qc 0)) eqn:E.
    + apply Qc_ltb_lt in E.
      replace (Qc_ltb (Q2Qc 0) q) with false
        by (symmetry; apply Qc_ltb_ge; qc_to_q; lra).
      replace (Qc_eqb (Q2Qc 0) q) with false
        by (symmetry; apply Qc_eqb_neq; qc_to_q; lra).
      reflexivity.
    + apply Qc_ltb_ge in E.
      destruct (Qc_eqb (Q2Qc 0) q) eqn:E0; [rewrite orb_true_r; reflexivity |].
      apply Qc_eqb_neq in E0.
      replace (Qc_ltb (Q2Qc 0) q) with true
        by (symmetry; apply Qc_ltb_lt; qc_to_q; lra).
      reflexivity.
  - reflexivity.
  - intros Ht. unfold AccountsPage.getBalanceColor.
    apply String.eqb_neq in Ht. rewrite Ht. reflexivity.
Qed.

(** ** Budget page: recommendations *)

(** X17.  Of the three recommendation cards (over budget for a remaining
    amount below 0, budget tip for one above 0 and below 200, great job for
    one of 200 or more) exactly one is rendered when the remaining amount is
    a number other than 0, and none when it is exactly 0 or [NaN]. *)
Theorem one_recommendation_unless_zero (period : BudgetPage.Period) :
  let shown :=
    (Nat.b2n (BudgetPage.overBudgetAlert period)
     + Nat.b2n (BudgetPage.budgetTip period)
     + Nat.b2n (BudgetPage.greatJob period))%nat in
  (BudgetPage.remaining period <> NaN ->
   eqb (BudgetPage.remaining period) (lit 0) = false -> shown = 1%nat)
  /\ (BudgetPage.remaining period = NaN
      \/ eqb (BudgetPage.remaining period) (lit 0) = true -> shown = 0%nat).
Proof.
  unfold BudgetPage.overBudgetAlert, BudgetPage.budgetTip, BudgetPage.greatJob.
  destruct (BudgetPage.remaining period) as [q | | |]; cbn zeta; split;
    try (intros Hn; contradiction Hn; reflexivity);
    try (intros _ _; reflexivity);
    try (intros [H | H]; [discriminate H | discriminate H]);
    try (intros _; reflexivity).
  - intros _ H0. unfold gt, ge, le, lit in *. cbn [lt eqb] in *.
    apply Qc_eqb_neq in H0.
    destruct (Qc_ltb q (Q2Qc 0)) eqn:E1.
    + apply Qc_ltb_lt in E1.
      replace (Qc_ltb (Q2Qc 0) q) with false
        by (symmetry; apply Qc_ltb_ge; qc_to_q; lra).
      replace (Qc_ltb (Q2Qc 200) q) with false
        by (symmetry; apply Qc_ltb_ge; qc_to_q; lra).
      replace (Qc_eqb (Q2Qc 200) q) with false
        by (symmetry; apply Qc_eqb_neq; qc_to_q; lra).
      reflexivity.
    + apply Qc_ltb_ge in E1.
      replace (Qc_ltb (Q2Qc 0) q) with true
        by (symmetry; apply Qc_ltb_lt; qc_to_q; lra).
      destruct (Qc_ltb q (Q2Qc 200)) eqn:E2.
      * apply Qc_ltb_lt in E2.
        replace (Qc_ltb (Q2Qc 200) q) with false
          by (symmetry; apply Qc_ltb_ge; qc_to_q; lra).
        replace (Qc_eqb (Q2Qc 200) q) with false
          by (symmetry; apply Qc_eqb_neq; qc_to_q; lra).
        reflexivity.
      * apply Qc_ltb_ge in E2.
        destruct (Qc_eqb (Q2Qc 200) q) eqn:E3;
          [rewrite orb_true_r; reflexivity |].
        apply Qc_eqb_neq in E3.
        replace (Qc_ltb (Q2Qc 200) q) with true
          by (symmetry; apply Qc_ltb_lt; qc_to_q; lra).
        reflexivity.
  - intros [H | H]; [discriminate H |].
    unfold gt, ge, le, lit in *. cbn [lt eqb] in *.
    apply Qc_eqb_eq in H. subst q. reflexivity.
Qed.

(** ** Dashboard: savings rate *)



(** X19.  With a monthly income of exactly 0 and finite monthly expenses,
    [savingsRate] is not finite: the division by the income is not guarded,
    and the rate is [NaN] for no expenses and minus infinity for expenses
    above 0. *)
Theorem savingsRate_zero_income (data : Dashboard.DashboardData) (expenses : Qc) :
  Dashboard.monthlyIncome data = lit 0 ->
  Dashboard.monthlyExpenses data = Fin expenses ->
  0 <= expenses ->
  Dashboard.savingsRate data = (if Qc_eqb expenses 0 then NaN else NInf).
Proof.
  intros Hi He Hexp. unfold Dashboard.savingsRate.
  rewrite Hi, He. unfold sub, lit. cbn [neg add div].
  replace (Qc_eqb (Q2Qc 0) 0) with true by reflexivity.
  unfold scale_inf.
  destruct (Qc_eqb expenses 0) eqn:E.
  - apply Qc_eqb_eq in E. subst expenses. reflexivity.
  - apply Qc_eqb_neq in E.
    replace (Qc_ltb 0 (Q2Qc 0 + - expenses)) with false
      by (symmetry; apply Qc_ltb_ge; qc_to_q; lra).
    replace (Qc_ltb (Q2Qc 0 + - expenses) 0) with true
      by (symmetry; apply Qc_ltb_lt; qc_to_q; lra).
    reflexivity.
Qed.

Lemma savingsRate_zero_income_witness :
  Dashboard.savingsRate
    {| Dashboard.totalBalance := lit 5420.50;
       Dashboard.totalDebt := lit 12500;
       Dashboard.monthlyIncome := lit 0;
       Dashboard.monthlyExpenses := lit 3200;
       Dashboard.recentTransactions := [] |} = NInf.
Proof.
  apply (savingsRate_zero_income _ (Q2Qc 3200)).
  - reflexivity.
  - reflexivity.
  - vm_compute. discriminate.
Defined.

(** ** Transactions page: filters, categories and totals *)

Lemma includes_empty (s : string) : includes s "" = true.
Proof. destruct s; reflexivity. Qed.

Lemma lowerAscii_idempotent (c : ascii) : lowerAscii (lowerAscii c) = lowerAscii c.
Proof. destruct c as [[] [] [] [] [] [] [] []]; reflexivity. Qed.

Lemma toLowerCase_idempotent (s : string) : toLowerCase (toLowerCase s) = toLowerCase s.
Proof.
  induction s as [| c s IH]; cbn; [reflexivity |].
  rewrite lowerAscii_idempotent, IH. reflexivity.
Qed.

Lemma filter_and {A : Type} (f g : A -> bool) (xs : list A) :
  filter f (filter g xs) = filter (fun x => f x && g x) xs.
Proof.
  induction xs as [| x xs IH]; cbn; [reflexivity |].
  destruct (g x); cbn; [destruct (f x); cbn; rewrite IH; reflexivity |].
  rewrite andb_false_r. exact IH.
Qed.

Lemma filter_all {A : Type} (f : A -> bool) (xs : list A) :
  (forall x, f x = true) -> filter f xs = xs.
Proof.
  intros H. induction xs as [| x xs IH]; cbn; [reflexivity |].
  rewrite H, IH. reflexivity.
Qed.

(** X20.  With an empty search term and the category and the type both at
    all, the state in which the page starts, no transaction is filtered out;
    and the three criteria are independent: filtering by the three at once
    is filtering by the type, then by the category, then by the search
    term. *)
Theorem filteredTransactions_criteria
    (searchTerm selectedCategory selectedType : string)
    (transactions : list TransactionsPage.Transaction) :
  TransactionsPage.filteredTransactions "" "all" "all" transactions = transactions
  /\ TransactionsPage.filteredTransactions searchTerm selectedCategory selectedType
       transactions
     = TransactionsPage.filteredTransactions searchTerm "all" "all"
         (TransactionsPage.filteredTransactions "" selectedCategory "all"
            (TransactionsPage.filteredTransactions "" "all" selectedType transactions)).
Proof.
  unfold TransactionsPage.filteredTransactions. cbn zeta. split.
  - apply filter_all. intros t. cbn [toLowerCase].
    rewrite includes_empty. reflexivity.
  - rewrite !filter_and. apply filter_ext. intros t. cbn [toLowerCase].
    rewrite !includes_empty.
    replace (String.eqb "all" "all") with true by reflexivity.
    cbn [orb andb]. rewrite !andb_true_r.
    rewrite <- andb_assoc. reflexivity.
Qed.

(** X21.  The search does not depend on the case of the ASCII letters of
    the search term: the term and its lower-case form select the same
    transactions. *)
Theorem filteredTransactions_term_case
    (searchTerm selectedCategory selectedType : string)
    (transactions : list TransactionsPage.Transaction) :
  TransactionsPage.filteredTransactions (toLowerCase searchTerm) selectedCategory
    selectedType transactions
  = TransactionsPage.filteredTransactions searchTerm selectedCategory selectedType
      transactions.
Proof.
  unfold TransactionsPage.filteredTransactions.
  rewrite toLowerCase_idempotent. reflexivity.
Qed.

Lemma existsb_eqb_In (x : string) (seen : list string) :
  existsb (String.eqb x) seen = true <-> In x seen.
Proof.
  rewrite existsb_exists. split.
  - intros (y & Hy & E). apply String.eqb_eq in E. subst y. exact Hy.
  - intros H. exists x. split; [exact H | apply String.eqb_refl].
Qed.

Lemma Array_from_Set_fold (xs seen : list string) :
  NoDup seen ->
  let result :=
    fold_left (fun seen x => if existsb (String.eqb x) seen then seen else seen ++ [x])
      xs seen in
  NoDup result /\ (forall c, In c result <-> In c seen \/ In c xs).
Proof.
  revert seen. induction xs as [| x xs IH]; intros seen Hseen; cbn.
  - split; [exact Hseen |]. intros c. tauto.
  - destruct (existsb (String.eqb x) seen) eqn:E.
    + apply existsb_eqb_In in E.
      destruct (IH seen Hseen) as [Hn Hin]. split; [exact Hn |].
      intros c. rewrite Hin. split; [tauto |].
      intros [H | [H | H]]; [tauto | subst c; tauto | tauto].
    + assert (Hx : ~ In x seen).
      { intros H. apply existsb_eqb_In in H. rewrite H in E. discriminate E. }
      assert (Hnd : NoDup (seen ++ [x])).
      { apply NoDup_app; [exact Hseen | repeat constructor; intros [] |].
        intros y Hy [Hy' | []]. subst y. exact (Hx Hy). }
      destruct (IH (seen ++ [x]) Hnd) as [Hn Hin]. split; [exact Hn |].
      intros c. rewrite Hin, in_app_iff. cbn. tauto.
Qed.

Lemma Array_from_Set_distinct (xs : list string) :
  NoDup (Array_from_Set xs) /\ (forall c, In c (Array_from_Set xs) <-> In c xs).
Proof.
  destruct (Array_from_Set_fold xs [] (NoDup_nil _)) as [Hn Hin].
  split; [exact Hn |]. intros c. rewrite (Hin c). cbn. tauto.
Qed.

(** X22.  The categories offered by the category filter are distinct, they
    are exactly the categories of the transactions, and each of them, when
    selected with an empty search term and every type, selects at least one
    transaction. *)
Theorem categories_of_transactions (transactions : list TransactionsPage.Transaction) :
  NoDup (TransactionsPage.categories transactions)
  /\ (forall c, In c (TransactionsPage.categories transactions)
                <-> exists t, In t transactions /\ TransactionsPage.category t = c)
  /\ (forall c, In c (TransactionsPage.categories transactions) ->
                TransactionsPage.filteredTransactions "" c "all" transactions <> []).
Proof.
  unfold TransactionsPage.categories.
  destruct (Array_from_Set_distinct (map TransactionsPage.category transactions))
    as [Hn Hin].
  assert (Hcat : forall c, In c (Array_from_Set (map TransactionsPage.category transactions))
                 <-> exists t, In t transactions /\ TransactionsPage.category t = c).
  { intros c. rewrite Hin, in_map_iff. split; intros (t & H1 & H2); exists t; tauto. }
  split; [exact Hn |]. split; [exact Hcat |].
  intros c Hc. apply Hcat in Hc. destruct Hc as (t & Ht & Hct).
  assert (Hf : In t (TransactionsPage.filteredTransactions "" c "all" transactions)).
  { unfold TransactionsPage.filteredTransactions. apply filter_In.
    split; [exact Ht |]. cbn [toLowerCase]. rewrite includes_empty, Hct.
    rewrite String.eqb_refl, orb_true_r. reflexivity. }
  intros E. rewrite E in Hf. exact Hf.
Qed.

(** X23.  The categories of the bills are likewise distinct and exactly the
    categories that occur among the bills. *)
Theorem categories_of_bills (bills : list BillsPage.Bill) :
  NoDup (BillsPage.categories bills)
  /\ (forall c, In c (BillsPage.categories bills)
                <-> exists bill, In bill bills /\ BillsPage.category bill = c).
Proof.
  unfold BillsPage.categories.
  destruct (Array_from_Set_distinct (map BillsPage.category bills)) as [Hn Hin].
  split; [exact Hn |].
  intros c. rewrite Hin, in_map_iff. split; intros (b & H1 & H2); exists b; tauto.
Qed.



